(** * SearXNGClient: content acquisition and extraction pipeline

    A shallow embedding of [src/searxng_client.ts].  The class talks to the
    network (axios), the file system (fs.promises), a subprocess
    (pdf2txt.py through child_process.exec) and two HTML parsers (JSDOM +
    Readability, Cheerio).  Those collaborators are not part of the
    repository: they are gathered in a record [Env] of oracles over which
    every statement is quantified.  The methods themselves are written in a
    state-and-exception monad over a [World] that holds the JavaScript
    object heap, the file system and the trace of external calls. *)

From Stdlib Require Import String Ascii ZArith NArith List Bool Lia.
From stdpp Require Import base option list gmap strings pretty.

Set Warnings "-register-all".
Open Scope string_scope.
Open Scope list_scope.

(** ** JavaScript strings

    A JavaScript string is a sequence of code units and [s.length] counts
    them.  The embedding uses [string], one character per code unit; this
    covers the code units below 256, and nothing below depends on the size
    of the alphabet. *)

Module JsString.

(** [hay.includes(needle)]: a case-sensitive substring test. *)
Fixpoint includes (needle hay : string) : bool :=
  String.prefix needle hay ||
  match hay with
  | EmptyString => false
  | String _ hay' => includes needle hay'
  end.

(** [s.slice(0, n)] for a non-negative [n]. *)
Definition slice0 (n : N) (s : string) : string :=
  String.substring 0 (N.to_nat n) s.

(** The white space of [\s] and of [trim()] among the first 256 code
    units: TAB, LF, VT, FF, CR, SPACE and NBSP. *)
Definition is_ws (c : ascii) : bool :=
  let n := nat_of_ascii c in
  (Nat.eqb n 9 || Nat.eqb n 10 || Nat.eqb n 11 || Nat.eqb n 12
   || Nat.eqb n 13 || Nat.eqb n 32 || Nat.eqb n 160)%bool.

Fixpoint trimStart (s : string) : string :=
  match s with
  | EmptyString => EmptyString
  | String c s' => if is_ws c then trimStart s' else s
  end.

Fixpoint trimEnd (s : string) : string :=
  match s with
  | EmptyString => EmptyString
  | String c s' =>
      match trimEnd s' with
      | EmptyString => if is_ws c then EmptyString else String c EmptyString
      | t => String c t
      end
  end.

(** [s.trim()] *)
Definition trim (s : string) : string := trimEnd (trimStart s).

(** [s.replace(/\s+/g, ' ')]: every maximal run of white space becomes
    one space; [in_run] tells that the previous code unit was white
    space. *)
Fixpoint collapse_from (in_run : bool) (s : string) : string :=
  match s with
  | EmptyString => EmptyString
  | String c s' =>
      if is_ws c
      then (if in_run then collapse_from true s'
            else String " " (collapse_from true s'))
      else String c (collapse_from false s')
  end.

Definition collapse_ws (s : string) : string := collapse_from false s.

(** Truthiness of a string: [!s] holds exactly for the empty string. *)
Definition nonempty (s : string) : bool :=
  match s with EmptyString => false | String _ _ => true end.

(** The double quote, code unit 34. *)
Definition dq : string :=
  String (Ascii false true false false false true false false) EmptyString.

(** ASCII lower-casing, used only to write down what a case-insensitive
    match would be. *)
Definition lower_ascii (c : ascii) : ascii :=
  let n := nat_of_ascii c in
  if (Nat.leb 65 n && Nat.leb n 90)%bool then ascii_of_nat (n + 32) else c.

Fixpoint toLowerCase (s : string) : string :=
  match s with
  | EmptyString => EmptyString
  | String c s' => String (lower_ascii c) (toLowerCase s')
  end.

End JsString.

(** ** JavaScript values and the object heap

    Plain objects are mutable and shared by reference, so an object value
    is a location in a heap; its fields live in the heap cell.  Arrays are
    only ever read by the source and are kept as lists.  Numbers are only
    tested for truthiness and printed in a log line; integers stand for
    them. *)

Abbreviation loc := nat.

Inductive value :=
| JUndefined
| JNull
| JBool (b : bool)
| JNum (z : Z)
| JStr (s : string)
| JArr (items : list value)
| JObj (l : loc).

(** Payload of a JSON response body, before [JSON.parse] turns it into
    objects. *)
Inductive json :=
| JsNull
| JsBool (b : bool)
| JsNum (z : Z)
| JsStr (s : string)
| JsArr (items : list json)
| JsObj (fields : list (string * json)).

Abbreviation obj := (gmap string value).

Inductive level := Info | Warn | Error.

(** Calls that leave the program, in the order they are made.
    [EvLateLog ms lvl msg] is the setting of a timer whose callback
    writes [msg] to the log [ms] milliseconds later: no timer of the
    source is ever cleared, so the line is written once the delay has
    passed, after the race the timer was set for is over. *)
Inductive event :=
| EvLog (lvl : level) (msg : string)
| EvHttpGet (url : string)
| EvWriteFile (path : string)
| EvExec (command : string)
| EvUnlink (path : string)
| EvReadability (html url : string)
| EvCheerio (html : string)
| EvLateLog (after_ms : N) (lvl : level) (msg : string).

Record World := mkWorld {
  heap : list obj;
  files : gmap string (list Byte.byte);
  trace : list event
}.

(** Thrown values.  Every library the source calls rejects with an
    [Error] object; axios marks its own.  The data of an error response is
    kept in its [JSON.stringify] rendering, the only way the source reads
    it. *)
Inductive exn :=
| AxiosError (message : string) (response : option (Z * string))
| JsError (message : string).

Definition message_of (e : exn) : string :=
  match e with
  | AxiosError m _ => m
  | JsError m => m
  end.

Inductive result (A : Type) :=
| Ok (a : A)
| Throw (e : exn).
Arguments Ok {A} a.
Arguments Throw {A} e.

(** ** The monad of the methods *)

Definition M (A : Type) : Type := World -> result A * World.

#[global] Instance M_ret : MRet M := fun A a w => (Ok a, w).

#[global] Instance M_bind : MBind M := fun A B f m w =>
  match m w with
  | (Ok a, w') => f a w'
  | (Throw e, w') => (Throw e, w')
  end.

Definition throw {A} (e : exn) : M A := fun w => (Throw e, w).

(** [try { body } catch (error) { handler }] *)
Definition try_catch {A} (body : M A) (handler : exn -> M A) : M A :=
  fun w =>
    match body w with
    | (Ok a, w') => (Ok a, w')
    | (Throw e, w') => handler e w'
    end.

Definition emit (e : event) : M unit :=
  fun w => (Ok tt, mkWorld (heap w) (files w) (trace w ++ [e])).

Definition get_world : M World := fun w => (Ok w, w).

(** [logger.log], [logger.warn], [logger.error] *)
Definition logger (lvl : level) (msg : string) : M unit := emit (EvLog lvl msg).

(** A new object literal. *)
Definition alloc (fields : obj) : M value :=
  fun w => (Ok (JObj (length (heap w))),
            mkWorld (heap w ++ [fields]) (files w) (trace w)).

Definition fields_at (h : list obj) (l : loc) : obj := default ∅ (h !! l).

(** ** Primitive operations on values *)

Definition truthy (v : value) : bool :=
  match v with
  | JUndefined | JNull => false
  | JBool b => b
  | JNum z => negb (z =? 0)%Z
  | JStr s => JsString.nonempty s
  | JArr _ | JObj _ => true
  end.

Definition typeof (v : value) : string :=
  match v with
  | JUndefined => "undefined"
  | JNull => "object"
  | JBool _ => "boolean"
  | JNum _ => "number"
  | JStr _ => "string"
  | JArr _ | JObj _ => "object"
  end.

Definition Array_isArray (v : value) : bool :=
  match v with JArr _ => true | _ => false end.

(** [v.key].  Reading a property of [null] or [undefined] throws; arrays
    and primitives of a JSON document own no named property besides
    [length]. *)
Definition get_prop (v : value) (key : string) : M value :=
  match v with
  | JUndefined | JNull =>
      throw (JsError ("Cannot read properties of " +:+
                      (if v is JNull then "null" else "undefined") +:+
                      " (reading '" +:+ key +:+ "')"))
  | JObj l => fun w => (Ok (default JUndefined (fields_at (heap w) l !! key)), w)
  | JArr items =>
      mret (if String.eqb key "length" then JNum (Z.of_nat (length items))
            else JUndefined)
  | JStr s =>
      mret (if String.eqb key "length" then JNum (Z.of_nat (String.length s))
            else JUndefined)
  | _ => mret JUndefined
  end.

(** [`${v}`]: the conversion of a value to a string.  An object is
    converted through its [toString] and [valueOf] methods.  The objects
    of a JSON document hold no function, so an object with a field of
    its own named [toString] has no callable [toString]; the inherited
    [valueOf] returns the object itself, and the conversion throws a
    TypeError whatever [valueOf] is.  Without such a field the inherited
    [toString] answers.  An array is joined with commas, element by
    element from the left, [null] and [undefined] counting as the empty
    string; the conversion of an element can throw. *)
Fixpoint to_String (h : list obj) (v : value) : result string :=
  match v with
  | JUndefined => Ok "undefined"
  | JNull => Ok "null"
  | JBool b => Ok (if b then "true" else "false")
  | JNum z => Ok (pretty z)
  | JStr s => Ok s
  | JArr items =>
      match
        (fix join (items : list value) : result (list string) :=
           match items with
           | [] => Ok []
           | x :: rest =>
               match (match x with
                      | JUndefined | JNull => Ok EmptyString
                      | _ => to_String h x
                      end) with
               | Ok s =>
                   match join rest with
                   | Ok ss => Ok (s :: ss)
                   | Throw e => Throw e
                   end
               | Throw e => Throw e
               end
           end) items
      with
      | Ok ss => Ok (String.concat "," ss)
      | Throw e => Throw e
      end
  | JObj l =>
      match fields_at h l !! "toString" with
      | Some _ => Throw (JsError "Cannot convert object to primitive value")
      | None => Ok "[object Object]"
      end
  end.

(** A template literal with one hole, [`prefix${v}`]. *)
Definition template (prefix : string) (v : value) : M string :=
  fun w =>
    match to_String (heap w) v with
    | Ok s => (Ok (prefix +:+ s), w)
    | Throw e => (Throw e, w)
    end.

(** The own enumerable fields copied by a spread [{...v}]. *)
Definition spread (h : list obj) (v : value) : obj :=
  match v with
  | JObj l => fields_at h l
  | JArr items => list_to_map (imap (fun i x => (pretty i, x)) items)
  | _ => ∅
  end.

(** [JSON.parse]: builds the objects of a document in the heap; a
    repeated key keeps its last value. *)
Fixpoint materialize (j : json) (h : list obj) : value * list obj :=
  match j with
  | JsNull => (JNull, h)
  | JsBool b => (JBool b, h)
  | JsNum z => (JNum z, h)
  | JsStr s => (JStr s, h)
  | JsArr js =>
      let '(vs, h') :=
        (fix go (js : list json) (h : list obj) : list value * list obj :=
           match js with
           | [] => ([], h)
           | j :: js' =>
               let '(v, h1) := materialize j h in
               let '(vs, h2) := go js' h1 in
               (v :: vs, h2)
           end) js h in
      (JArr vs, h')
  | JsObj kvs =>
      let '(fs, h') :=
        (fix go (kvs : list (string * json)) (acc : obj) (h : list obj)
           : obj * list obj :=
           match kvs with
           | [] => (acc, h)
           | (k, j) :: kvs' =>
               let '(v, h1) := materialize j h in
               go kvs' (<[k := v]> acc) h1
           end) kvs ∅ h in
      (JObj (length h'), h' ++ [fs])
  end.

(** ** The collaborators

    What the network, the subprocess, the file system, the clock and the
    parsers answer is not decided by the program.  The answers that depend
    on the moment of the call take the current [World] (its trace records
    everything done so far). *)

Inductive NetOutcome (D : Type) :=
| NetResponse (status : Z) (headers : gmap string string) (data : D)
| NetFailure (message : string)
| NetOther (message : string).
Arguments NetResponse {D} status headers data.
Arguments NetFailure {D} message.
Arguments NetOther {D} message.

Inductive ExecOutcome :=
| ExecExit (elapsed_ms : N) (code : Z) (stdout stderr : string)
| ExecError (elapsed_ms : N) (message : string)
| ExecHang.

Inductive ReadabilityOutcome :=
| ArticleText (textContent : option string)
| ReadabilityThrows (message : string).

Inductive CheerioOutcome :=
| BodyText (text : string)
| CheerioThrows (message : string).

Record Env := mkEnv {
  (** the JSON search endpoint: url, query parameters *)
  net_json : World -> string -> list (string * string) -> NetOutcome json;
  (** a document fetched as raw bytes *)
  net_bytes : World -> string -> NetOutcome (list Byte.byte);
  (** [Date.now()] *)
  date_now : World -> N;
  (** [fs.promises.writeFile] and [unlink]: the error they reject with *)
  fs_write_error : World -> string -> option string;
  fs_unlink_error : World -> string -> option string;
  (** the run of a shell command *)
  exec_outcome : World -> string -> ExecOutcome;
  (** [new Readability(new JSDOM(html, {url}).window.document).parse()
      ?.textContent]; [None] is an absent article or text *)
  readability : string -> string -> ReadabilityOutcome;
  (** [cheerio.load(html)], removal of script, style, nav, footer and
      header, then [$('body').text()] *)
  cheerio_body_text : string -> CheerioOutcome;
  (** whether [new URL(url)] succeeds *)
  URL_parses : string -> bool;
  (** [buffer.toString()] *)
  Buffer_toString : list Byte.byte -> string;
  JSON_stringify : list obj -> value -> string;
  JSON_stringify_buffer : list Byte.byte -> string
}.

Record AxiosResponse (D : Type) := mkResponse {
  status : Z;
  resp_headers : gmap string string;
  data : D
}.
Arguments mkResponse {D} status resp_headers data.
Arguments status {D} _.
Arguments resp_headers {D} _.
Arguments data {D} _.

(** A promise seen from its creation: it settles after some milliseconds
    with a value or a rejection, or never does. *)
Inductive promise (A : Type) :=
| Settles (after_ms : N) (r : result A)
| Pending.
Arguments Settles {A} after_ms r.
Arguments Pending {A}.

(** [await Promise.race([p, timer])] where [timer] is a promise that a
    call of [setTimeout] settles with [r] after [ms] milliseconds, its
    callback first writing the line [late] to the log, if it writes one.
    The timer is set after [p] is made; of two promises settled at the
    same time the first listed wins.  When the timer wins, the line of
    its callback is in the log before the awaiting method goes on.  When
    [p] wins, the timer is still there, since nothing clears it: its
    callback runs later, the settling of the promise is then without
    effect, and its line is still written. *)
Definition race_timer {A} (p : promise A) (ms : N)
    (late : option (level * string)) (r : result A) : M A :=
  fun w =>
    let fired :=
      match late with
      | Some (lvl, msg) =>
          mkWorld (heap w) (files w) (trace w ++ [EvLog lvl msg])
      | None => w
      end in
    let lost :=
      match late with
      | Some (lvl, msg) =>
          mkWorld (heap w) (files w) (trace w ++ [EvLateLog ms lvl msg])
      | None => w
      end in
    match p with
    | Settles t x => if (t <=? ms)%N then (x, lost) else (r, fired)
    | Pending => (r, fired)
    end.

(** [resolve(v)] and [reject(e)] inside an executor: only the first call
    settles the promise. *)
Definition settle {A} (st : option (result A)) (r : result A)
  : option (result A) :=
  match st with
  | None => Some r
  | Some _ => st
  end.

(** The promise an executor leaves behind when it has run to its end
    inside [new Promise(...)]. *)
Definition promise_of {A} (st : option (result A)) : promise A :=
  match st with
  | Some r => Settles 0 r
  | None => Pending
  end.

(** The fields of the class, with their initial values. *)
Record SearXNGClient := mkClient {
  base_url : string;
  headers : list (string * string);
  default_engines : list string;
  num_results : N;
  timeout : N;
  parsingTimeout : N;
  max_content_length : N;
  max_workers : N;
  pdfExtractionTimeout : N
}.

Definition new_SearXNGClient : SearXNGClient := {|
  base_url := "http://localhost:8888/";
  headers :=
    [("X-Searx-API-Key",
      "f1d2d2f924e986ac86fdf7b36c94bcdf32aa1234567890abcdef1234567890ab");
     ("User-Agent",
      "Mozilla/5.0 (Windows NT 10.0; Win64; x64) AppleWebKit/537.36 (KHTML, like Gecko) Chrome/91.0.4472.124 Safari/537.36")];
  default_engines := ["google"; "bing"; "duckduckgo"; "brave"];
  num_results := 10;
  timeout := 10;
  parsingTimeout := 15;
  max_content_length := 50000;
  max_workers := 5;
  pdfExtractionTimeout := 30
|}.

Record ParsedContent := mkParsed {
  url : string;
  content : string
}.

(** [error.response?.status || 'N/A'] *)
Definition status_or_NA (response : option (Z * string)) : string :=
  match response with
  | Some (st, _) => if (st =? 0)%Z then "N/A" else pretty st
  | None => "N/A"
  end.

Section Client.

Variable env : Env.
Variable self : SearXNGClient.

(** *** axios, fs and child_process as the source uses them *)

(** The default [validateStatus] of axios. *)
Definition validateStatus (st : Z) : bool := ((200 <=? st) && (st <? 300))%Z.

Definition set_heap (h : list obj) : M unit :=
  fun w => (Ok tt, mkWorld h (files w) (trace w)).

(** [axios.get(url, {headers, params, timeout})] with the default JSON
    response type: one request; the body is parsed into objects. *)
Definition axios_get_json (url : string) (params : list (string * string))
  : M (AxiosResponse value) :=
  emit (EvHttpGet url);;
  w ← get_world;
  match net_json env w url params with
  | NetResponse st hs d =>
      let '(v, h') := materialize d (heap w) in
      set_heap h';;
      if validateStatus st then mret (mkResponse st hs v)
      else throw (AxiosError ("Request failed with status code " +:+ pretty st)
                             (Some (st, JSON_stringify env h' v)))
  | NetFailure m => throw (AxiosError m None)
  | NetOther m => throw (JsError m)
  end.

(** [axios.get(url, {headers, timeout, maxBodyLength,
    responseType: 'arraybuffer'})]: one request; the body stays a
    buffer. *)
Definition axios_get_bytes (url : string)
  : M (AxiosResponse (list Byte.byte)) :=
  emit (EvHttpGet url);;
  w ← get_world;
  match net_bytes env w url with
  | NetResponse st hs d =>
      if validateStatus st then mret (mkResponse st hs d)
      else throw (AxiosError ("Request failed with status code " +:+ pretty st)
                             (Some (st, JSON_stringify_buffer env d)))
  | NetFailure m => throw (AxiosError m None)
  | NetOther m => throw (JsError m)
  end.

Definition fs_writeFile (path : string) (buffer : list Byte.byte) : M unit :=
  emit (EvWriteFile path);;
  w ← get_world;
  match fs_write_error env w path with
  | Some m => throw (JsError m)
  | None =>
      fun w => (Ok tt, mkWorld (heap w) (<[path := buffer]> (files w)) (trace w))
  end.

Definition fs_unlink (path : string) : M unit :=
  emit (EvUnlink path);;
  w ← get_world;
  match files w !! path with
  | None =>
      throw (JsError ("ENOENT: no such file or directory, unlink '"
                      +:+ path +:+ "'"))
  | Some _ =>
      match fs_unlink_error env w path with
      | Some m => throw (JsError m)
      | None =>
          fun w => (Ok tt, mkWorld (heap w) (delete path (files w)) (trace w))
      end
  end.

(** [execAsync(command)]: the subprocess is started; the promise
    resolves with its output when it exits with code 0 and rejects
    otherwise (the message of the rejection is cut after the command). *)
Definition execAsync (command : string) : M (promise (string * string)) :=
  emit (EvExec command);;
  w ← get_world;
  mret (match exec_outcome env w command with
        | ExecExit t code out err =>
            Settles t (if (code =? 0)%Z then Ok (out, err)
                       else Throw (JsError ("Command failed: " +:+ command)))
        | ExecError t m => Settles t (Throw (JsError m))
        | ExecHang => Pending
        end).

Definition Readability_parse (html url : string) : M (option string) :=
  emit (EvReadability html url);;
  match readability env html url with
  | ArticleText t => mret t
  | ReadabilityThrows m => throw (JsError m)
  end.

Definition cheerio_text (html : string) : M string :=
  emit (EvCheerio html);;
  match cheerio_body_text env html with
  | BodyText t => mret t
  | CheerioThrows m => throw (JsError m)
  end.

(** *** The methods of the class *)

Definition search (query : string) (language : string) : M value :=
  let params :=
    [("q", query); ("format", "json"); ("language", language);
     ("engines", String.concat "," (default_engines self));
     ("results", pretty (num_results self))] in
  try_catch
    (logger Info ("SearXNGClient: Performing search with query " +:+ JsString.dq +:+ query +:+ JsString.dq);;
     response ← axios_get_json (base_url self +:+ "/search") params;
     logger Info ("SearXNGClient: Search request successful with status "
                  +:+ pretty (status response));;
     w ← get_world;
     logger Info ("SearXNGClient: Raw JSON response: "
                  +:+ JSON_stringify env (heap w) (data response));;
     mret (data response))
    (fun error =>
       match error with
       | AxiosError m response =>
           let errorMessage :=
             "Axios error during SearXNG search: " +:+ m
             +:+ ". Status code: " +:+ status_or_NA response in
           (if response is Some (_, d)
            then logger Error ("Response data: " +:+ d)
            else mret tt);;
           logger Error errorMessage;;
           alloc {[ "results" := JArr [] ]}
       | JsError m =>
           logger Error ("Non-Axios error during SearXNG search: " +:+ m);;
           alloc {[ "results" := JArr [] ]}
       end).

Definition _fetch_url_content (url : string)
  : M (option (AxiosResponse (list Byte.byte))) :=
  try_catch
    (logger Info ("SearXNGClient: Fetching content from URL: " +:+ url);;
     response ← axios_get_bytes url;
     logger Info ("SearXNGClient: Successfully fetched content from " +:+ url);;
     mret (Some response))
    (fun error =>
       match error with
       | AxiosError m response =>
           let errorMessage :=
             "Axios error during content fetch from " +:+ url +:+ ": " +:+ m
             +:+ ". Status code: " +:+ status_or_NA response in
           (if response is Some (_, d)
            then logger Error ("Response data: " +:+ d)
            else mret tt);;
           logger Error errorMessage;;
           mret None
       | JsError m =>
           logger Error ("Non-Axios error during content fetch from "
                         +:+ url +:+ ": " +:+ m);;
           mret None
       end).

Definition tempFilePath_at (now : N) : string :=
  "/tmp/temp_" +:+ pretty now +:+ ".pdf".

Definition _extract_text_from_pdf (url : string) (buffer : list Byte.byte)
  : M (option string) :=
  try_catch
    (w ← get_world;
     let tempFilePath := tempFilePath_at (date_now env w) in
     fs_writeFile tempFilePath buffer;;
     let command := "pdf2txt.py " +:+ JsString.dq +:+ tempFilePath +:+ JsString.dq in
     logger Info ("Executing: " +:+ command);;
     running ← execAsync command;
     '(stdout, stderr) ←
       race_timer running (pdfExtractionTimeout self * 1000) None
         (Throw (JsError ("PDF extraction timed out after "
                          +:+ pretty (pdfExtractionTimeout self)
                          +:+ " seconds")));
     (if JsString.nonempty stderr
      then logger Warn ("pdf2txt.py stderr: " +:+ stderr)
      else mret tt);;
     fs_unlink tempFilePath;;
     mret (Some (JsString.trim stdout)))
    (fun error =>
       logger Error ("Error extracting text from PDF " +:+ url +:+ ": "
                     +:+ message_of error);;
       mret None).

(** The executor of [parsingPromise].  It runs inside [new Promise], so
    the promise is settled when the constructor returns.  [content] is a
    string from the end of the fallback block on, and no statement after
    the first [resolve] can throw: [reject] in the handler always finds
    the promise unsettled. *)
Definition parsing_executor (html url : string)
  : M (option (result (option ParsedContent))) :=
  try_catch
    (textContent ← Readability_parse html url;
     content ←
       (match textContent with
        | Some (String c s) => mret (String c s)
        | _ =>
            logger Warn ("SearXNGClient: Readability failed to extract content from "
                         +:+ url +:+ ", falling back to Cheerio");;
            text ← cheerio_text html;
            mret (JsString.trim (JsString.collapse_ws text))
        end);
     st ←
       (if negb (JsString.nonempty content)
        then
          logger Warn ("SearXNGClient: Cheerio also failed to extract content from "
                       +:+ url);;
          mret (settle None (Ok None))
        else mret None);
     logger Info ("SearXNGClient: Successfully parsed content from " +:+ url);;
     mret (settle st
             (Ok (Some (mkParsed url
                          (JsString.slice0 (max_content_length self) content))))))
    (fun error =>
       logger Error ("Error parsing content from " +:+ url +:+ ": "
                     +:+ message_of error);;
       mret (settle None (Throw error))).

Definition _parse_content (response : AxiosResponse (list Byte.byte))
    (url : string) : M (option ParsedContent) :=
  let contentType :=
    match resp_headers response !! "content-type" with
    | Some s => s
    | None => ""
    end in
  if JsString.includes "application/pdf" contentType then
    logger Info ("SearXNGClient: Detected PDF content for URL: " +:+ url);;
    try_catch
      (pdfText ← _extract_text_from_pdf url (data response);
       match pdfText with
       | Some (String c s) =>
           mret (Some (mkParsed url
                         (JsString.slice0 (max_content_length self)
                                          (String c s))))
       | _ =>
           logger Warn ("SearXNGClient: Could not extract text from PDF: " +:+ url);;
           mret None
       end)
      (fun error =>
         logger Error ("Error processing PDF " +:+ url +:+ ": "
                       +:+ message_of error);;
         mret None)
  else
    let html := Buffer_toString env (data response) in
    if negb (JsString.nonempty html) then
      logger Warn ("SearXNGClient: No HTML provided for parsing from URL: " +:+ url);;
      mret None
    else
      try_catch
        (logger Info ("SearXNGClient: Parsing HTML content from URL: " +:+ url);;
         st ← parsing_executor html url;
         let parsingPromise := promise_of st in
         race_timer parsingPromise (parsingTimeout self * 1000)
           (Some (Warn, "SearXNGClient: Parsing timed out for URL: " +:+ url))
           (Ok None))
        (fun error =>
           logger Error ("Error setting up parsing for " +:+ url +:+ ": "
                         +:+ message_of error);;
           mret None).

Definition _is_valid_url (url : string) : bool := URL_parses env url.

(** One turn of the [for ... of] loop of [fetch_and_parse_results];
    [continue] is the return of the unchanged [parsedResults].  The two
    methods called through [this] are left open, so that the [catch]
    clause can be met by a callee that throws.  The warning for an
    invalid URL is built outside the [try]: for a URL that is not a
    string the conversion of the template literal can throw, and then
    the loop is left. *)
Definition loop_body_with
    (_fetch_url_content_ : string -> M (option (AxiosResponse (list Byte.byte))))
    (_parse_content_ : AxiosResponse (list Byte.byte) -> string
                       -> M (option ParsedContent))
    (result : value) (parsedResults : list value) : M (list value) :=
  if negb (truthy result) || negb (String.eqb (typeof result) "object") then
    logger Warn "SearXNGClient: Skipping invalid result item: not an object";;
    mret parsedResults
  else
    url ← get_prop result "url";
    match url with
    | JStr u =>
        if negb (_is_valid_url u) then
          logger Warn ("SearXNGClient: Skipping result with invalid URL: " +:+ u);;
          mret parsedResults
        else
          try_catch
            (response ← _fetch_url_content_ u;
             match response with
             | Some response =>
                 parsedContent ← _parse_content_ response u;
                 match parsedContent with
                 | Some pc =>
                     if JsString.nonempty (content pc) then
                       w ← get_world;
                       item ← alloc (<["parsed_content" := JStr (content pc)]>
                                       (spread (heap w) result));
                       mret (parsedResults ++ [item])
                     else mret parsedResults
                 | None => mret parsedResults
                 end
             | None => mret parsedResults
             end)
            (fun error =>
               logger Error ("Error processing result for URL " +:+ u +:+ ": "
                             +:+ message_of error);;
               mret parsedResults)
    | _ =>
        msg ← template "SearXNGClient: Skipping result with invalid URL: " url;
        logger Warn msg;;
        mret parsedResults
    end.

Fixpoint for_of_with
    (_fetch_url_content_ : string -> M (option (AxiosResponse (list Byte.byte))))
    (_parse_content_ : AxiosResponse (list Byte.byte) -> string
                       -> M (option ParsedContent))
    (results : list value) (parsedResults : list value) : M (list value) :=
  match results with
  | [] => mret parsedResults
  | result :: rest =>
      parsedResults' ←
        loop_body_with _fetch_url_content_ _parse_content_ result parsedResults;
      for_of_with _fetch_url_content_ _parse_content_ rest parsedResults'
  end.

Definition fetch_and_parse_results_with
    (_fetch_url_content_ : string -> M (option (AxiosResponse (list Byte.byte))))
    (_parse_content_ : AxiosResponse (list Byte.byte) -> string
                       -> M (option ParsedContent))
    (results : value) : M (list value) :=
  if negb (truthy results) || negb (Array_isArray results) then
    logger Error "SearXNGClient: Invalid results format received. Expected an array.";;
    mret []
  else
    match results with
    | JArr items => for_of_with _fetch_url_content_ _parse_content_ items []
    | _ => mret []
    end.

Definition loop_body : value -> list value -> M (list value) :=
  loop_body_with _fetch_url_content _parse_content.

Definition for_of : list value -> list value -> M (list value) :=
  for_of_with _fetch_url_content _parse_content.

Definition fetch_and_parse_results (results : value) : M (list value) :=
  fetch_and_parse_results_with _fetch_url_content _parse_content results.

(** [search_and_parse], with the two methods it calls through [this]
    left open, so that the [catch] clause can be met by a callee that
    throws. *)
Definition search_and_parse_with
    (search_ : string -> string -> M value)
    (fetch_and_parse_results_ : value -> M (list value))
    (query : string) (language : string) : M (list value) :=
  try_catch
    (logger Info ("SearXNGClient: Starting search and parse for query "
                  +:+ JsString.dq +:+ query +:+ JsString.dq);;
     searchResults ← search_ query language;
     if negb (truthy searchResults)
        || negb (String.eqb (typeof searchResults) "object") then
       logger Error "SearXNGClient: Invalid searchResults format received. Expected an object.";;
       mret []
     else
       results ← get_prop searchResults "results";
       if negb (truthy results) || negb (Array_isArray results) then
         logger Error "SearXNGClient: Invalid searchResults.results format received. Expected an array.";;
         mret []
       else
         parsedResults ← fetch_and_parse_results_ results;
         logger Info ("SearXNGClient: Successfully completed search and parse for query "
                      +:+ JsString.dq +:+ query +:+ JsString.dq);;
         mret parsedResults)
    (fun error =>
       logger Error ("Error during search_and_parse for query " +:+ JsString.dq +:+ query
                     +:+ JsString.dq +:+ ": " +:+ message_of error);;
       mret []).

Definition search_and_parse (query : string) (language : string)
  : M (list value) :=
  search_and_parse_with search fetch_and_parse_results query language.

End Client.

(** ** Concrete collaborators

    A small web used to run the methods on concrete inputs: an HTML page,
    a PDF document, a PDF served with an upper-case media type, a page
    without text, a missing page and an unreachable host. *)

Module Scenario.

Definition hello_html : string :=
  "<html><body><article>Hello world</article></body></html>".

Definition blank_html : string :=
  "<html><body><script>var x;</script>   </body></html>".

Definition pdf_bytes : list Byte.byte := list_byte_of_string "%PDF-1.4".

Definition page (contentType : string) (body : list Byte.byte)
  : NetOutcome (list Byte.byte) :=
  NetResponse 200 {[ "content-type" := contentType ]} body.

Definition web (u : string) : NetOutcome (list Byte.byte) :=
  if String.eqb u "https://a.test" then
    page "text/html" (list_byte_of_string hello_html)
  else if String.eqb u "https://b.test/doc.pdf" then
    page "application/pdf" pdf_bytes
  else if String.eqb u "https://c.test/doc.pdf" then
    page "Application/PDF; charset=x" pdf_bytes
  else if String.eqb u "https://d.test" then
    page "text/html; charset=utf-8" (list_byte_of_string blank_html)
  else if String.eqb u "https://e.test/missing" then
    NetResponse 404 ∅ (list_byte_of_string "Not Found")
  else NetFailure "timeout of 10000ms exceeded".

(** The answer of the search endpoint when it is up. *)
Definition search_response : NetOutcome json :=
  NetResponse 200 {[ "content-type" := "application/json" ]}
    (JsObj [("query", JsStr "rocq");
            ("results",
             JsArr [JsObj [("url", JsStr "https://a.test");
                           ("title", JsStr "A")];
                    JsObj [("url", JsStr "https://e.test/missing")];
                    JsObj [("url", JsStr "https://b.test/doc.pdf")]])]).

(** The collaborators, given what the search endpoint answers and what
    a run of pdf2txt.py does. *)
Definition env_of (searx : NetOutcome json) (pdf2txt : ExecOutcome) : Env := {|
  net_json := fun _ _ _ => searx;
  net_bytes := fun _ u => web u;
  date_now := fun _ => 1700000000000%N;
  fs_write_error := fun _ _ => None;
  fs_unlink_error := fun _ _ => None;
  exec_outcome := fun _ _ => pdf2txt;
  readability := fun html _ =>
    if String.eqb html hello_html then ArticleText (Some "Hello world")
    else ArticleText None;
  cheerio_body_text := fun html =>
    if String.eqb html hello_html then BodyText "Hello world"
    else BodyText "   ";
  URL_parses := fun u => String.prefix "https://" u;
  Buffer_toString := string_of_list_byte;
  JSON_stringify := fun _ _ => "{}";
  JSON_stringify_buffer := fun _ => "{}"
|}.

(** The same with the search endpoint down. *)
Definition env_with (pdf2txt : ExecOutcome) : Env :=
  env_of (NetFailure "connect ECONNREFUSED 127.0.0.1:8888") pdf2txt.

Definition pdf_ok : ExecOutcome :=
  ExecExit 1200 0 "  Document text  " EmptyString.

Definition pdf_fails : ExecOutcome :=
  ExecExit 300 1 EmptyString "Syntax Error: Couldn't find trailer dictionary".

Definition pdf_hangs : ExecOutcome := ExecHang.

Definition env : Env := env_with pdf_ok.

(** A heap with six result items, the fourth of which already carries a
    [parsed_content] field. *)
Definition heap0 : list obj :=
  [ {[ "url" := JStr "https://a.test"; "title" := JStr "A" ]};
    {[ "url" := JStr "https://b.test/doc.pdf" ]};
    {[ "url" := JStr "not a url" ]};
    {[ "url" := JStr "https://a.test";
       "parsed_content" := JStr "stale text" ]};
    {[ "url" := JStr "https://unreachable.test" ]};
    {[ "url" := JStr "https://d.test" ]} ].

Definition world0 : World := mkWorld heap0 ∅ [].

Definition temp_path : string := "/tmp/temp_1700000000000.pdf".

End Scenario.

(** ** Further concrete collaborators *)

Module Scenario2.

Definition tab : string := String (Ascii.ascii_of_nat 9) EmptyString.

(** A page in which Readability finds no article and whose body text is
    full of blanks. *)
Definition messy_html : string :=
  "<html><body><nav>menu</nav><p>Title</p><p>some   text</p></body></html>".

Definition messy_body : string :=
  "  Title " +:+ tab +:+ tab +:+ "  some   text  ".

(** The collaborators of [Scenario.env], with a web that only serves
    [page], with the given error for the removal of a file, and with the
    given body text for the pages other than the hello page. *)
Definition env_custom (page : NetOutcome (list Byte.byte))
    (unlink_error : option string) (body : string) : Env := {|
  net_json := fun _ _ _ => NetFailure "connect ECONNREFUSED 127.0.0.1:8888";
  net_bytes := fun _ _ => page;
  date_now := fun _ => 1700000000000%N;
  fs_write_error := fun _ _ => None;
  fs_unlink_error := fun _ _ => unlink_error;
  exec_outcome := fun _ _ => Scenario.pdf_ok;
  readability := fun html _ =>
    if String.eqb html Scenario.hello_html
    then ArticleText (Some "Hello world")
    else ArticleText None;
  cheerio_body_text := fun html =>
    if String.eqb html Scenario.hello_html then BodyText "Hello world"
    else BodyText body;
  URL_parses := fun u => String.prefix "https://" u;
  Buffer_toString := string_of_list_byte;
  JSON_stringify := fun _ _ => "{}";
  JSON_stringify_buffer := fun _ => "{}"
|}.

Definition messy_page : NetOutcome (list Byte.byte) :=
  Scenario.page "text/html" (list_byte_of_string messy_html).

Definition messy_response : AxiosResponse (list Byte.byte) :=
  mkResponse 200 {[ "content-type" := "text/html" ]}
    (list_byte_of_string messy_html).

Definition hello_response : AxiosResponse (list Byte.byte) :=
  mkResponse 200 {[ "content-type" := "text/html" ]}
    (list_byte_of_string Scenario.hello_html).

Definition pdf_response : AxiosResponse (list Byte.byte) :=
  mkResponse 200 {[ "content-type" := "application/pdf" ]} Scenario.pdf_bytes.

Definition env_messy : Env := env_custom messy_page None messy_body.

Definition env_unlink_fails : Env :=
  env_custom (Scenario.page "application/pdf" Scenario.pdf_bytes)
    (Some "EACCES: permission denied, unlink") messy_body.

Definition env_html_only : Env :=
  env_custom (Scenario.page "text/html"
                (list_byte_of_string Scenario.hello_html))
    None messy_body.

(** A fetch that always throws. *)
Definition fetch_throws (_ : string)
  : M (option (AxiosResponse (list Byte.byte))) :=
  throw (JsError "socket hang up").

Definition parse_unused (_ : AxiosResponse (list Byte.byte)) (_ : string)
  : M (option ParsedContent) :=
  mret None.

(** The heap of [Scenario.heap0] followed by an object with a field of
    its own named [toString], as the JSON text {"toString": 1} gives,
    and by a result item whose [url] field is that object. *)
Definition heap1 : list obj :=
  Scenario.heap0 ++
  [ {[ "toString" := JNum 1 ]};
    {[ "url" := JObj 6; "title" := JStr "B" ]} ].

Definition world1 : World := mkWorld heap1 ∅ [].

(** An answer of the search endpoint with such an item among its
    results. *)
Definition odd_search_response : NetOutcome json :=
  NetResponse 200 {[ "content-type" := "application/json" ]}
    (JsObj [("results",
             JsArr [JsObj [("url", JsStr "https://a.test")];
                    JsObj [("url", JsObj [("toString", JsNum 1)])]])]).

End Scenario2.

(** * Observations

    What the statements below read off a run: the calls recorded in the
    trace and the fields of the objects in the heap. *)

Definition http_gets (evs : list event) : list string :=
  omap (fun e => if e is EvHttpGet u then Some u else None) evs.

Definition writes (evs : list event) : list string :=
  omap (fun e => if e is EvWriteFile p then Some p else None) evs.

Definition tier1_calls (evs : list event) : list (string * string) :=
  omap (fun e => if e is EvReadability h u then Some (h, u) else None) evs.

Definition tier2_calls (evs : list event) : list string :=
  omap (fun e => if e is EvCheerio h then Some h else None) evs.

(** [v.key] as an optional value: [None] when [v] is no object or has no
    such field. *)
Definition field_of (h : list obj) (v : value) (key : string) : option value :=
  match v with
  | JObj l => fields_at h l !! key
  | _ => None
  end.

Definition url_of (h : list obj) (v : value) : option string :=
  match field_of h v "url" with
  | Some (JStr u) => Some u
  | _ => None
  end.

(** The items of the argument of [fetch_and_parse_results]. *)
Definition input_items (results : value) : list value :=
  match results with
  | JArr items => items
  | _ => []
  end.

(** The array under [v.results], when [v] is an object that has one. *)
Definition results_array (h : list obj) (v : value) : option (list value) :=
  match field_of h v "results" with
  | Some (JArr items) => Some items
  | _ => None
  end.

(** Which extractor a run of [_parse_content] reached, read off the calls
    it made: the PDF extractor starts by writing its temporary file, the
    markup extractor by running Tier 1. *)
Definition pdf_extractor_called (new : list event) : bool :=
  negb (bool_decide (writes new = [])).

Definition markup_extractor_called (new : list event) : bool :=
  negb (bool_decide (tier1_calls new = [])).

(** A substring match that ignores case, as a case-insensitive reading of
    the content type would be. *)
Definition includes_ignoring_case (needle hay : string) : bool :=
  JsString.includes (JsString.toLowerCase needle) (JsString.toLowerCase hay).


(** The world in which a request for [url] reaches the network. *)
Definition request_world (url : string) (w : World) : World :=
  mkWorld (heap w) (files w)
    (trace w ++ [EvLog Info ("SearXNGClient: Fetching content from URL: " +:+ url);
                 EvHttpGet url]).

Definition header_content_type (response : AxiosResponse (list Byte.byte))
  : string :=
  match resp_headers response !! "content-type" with
  | Some s => s
  | None => EmptyString
  end.

(** Tier 1 ran and gave no text: an absent article, an absent text or
    the empty string. *)
Definition tier1_empty (o : ReadabilityOutcome) : bool :=
  match o with
  | ArticleText (Some (String _ _)) => false
  | ArticleText _ => true
  | ReadabilityThrows _ => false
  end.

(** The text Tier 2 yields: the body text with white space collapsed
    and trimmed. *)
Definition tier2_text (o : CheerioOutcome) : option string :=
  match o with
  | BodyText t => Some (JsString.trim (JsString.collapse_ws t))
  | CheerioThrows _ => None
  end.

Definition is_pdf (response : AxiosResponse (list Byte.byte)) : bool :=
  JsString.includes "application/pdf" (header_content_type response).

(** The URL the loop fetches for [item], if it fetches one. *)
Definition valid_url_of (env : Env) (h : list obj) (item : value)
  : option string :=
  match item with
  | JObj l =>
      match fields_at h l !! "url" with
      | Some (JStr u) => if _is_valid_url env u then Some u else None
      | _ => None
      end
  | _ => None
  end.

(** [out] is [item] enriched: a new object holding the fields of [item]
    and, under [parsed_content], the text [c] that [_parse_content]
    returned for the document fetched from the item's URL. *)
Definition enriched (env : Env) (self : SearXNGClient) (h h' : list obj)
    (item out : value) : Prop :=
  exists l fs u l' c,
    item = JObj l /\ h' !! l = Some fs /\ fs !! "url" = Some (JStr u)
    /\ _is_valid_url env u = true
    /\ out = JObj l' /\ length h <= l'
    /\ h' !! l' = Some (<["parsed_content" := JStr c]> fs)
    /\ 0 < String.length c
    /\ (N.of_nat (String.length c) <= max_content_length self)%N
    /\ exists w0 response w1 pc w2,
         _fetch_url_content env u w0 = (Ok (Some response), w1)
         /\ _parse_content env self response u w1 = (Ok (Some pc), w2)
         /\ c = content pc.

(** No item refers to an object that does not exist. *)
Definition closed (h : list obj) (items : list value) : Prop :=
  Forall (fun v => if v is JObj l then l < length h else True) items.

(** The worlds in which [_extract_text_from_pdf], started in [w], asks for
    the write of its temporary file and for the run of pdf2txt.py. *)
Definition write_world (env : Env) (w : World) : World :=
  mkWorld (heap w) (files w)
    (trace w ++ [EvWriteFile (tempFilePath_at (date_now env w))]).

Definition exec_world (env : Env) (buffer : list Byte.byte) (w : World)
  : World :=
  let path := tempFilePath_at (date_now env w) in
  let command := "pdf2txt.py " +:+ JsString.dq +:+ path +:+ JsString.dq in
  mkWorld (heap w) (<[path := buffer]> (files w))
    (trace w ++ [EvWriteFile path; EvLog Info ("Executing: " +:+ command);
                 EvExec command]).

(** The race of the subprocess against a timer of [ms] milliseconds
    rejects. *)
Definition race_rejects (ms : N) (o : ExecOutcome) : bool :=
  match o with
  | ExecExit t code _ _ => negb (t <=? ms)%N || negb (code =? 0)%Z
  | ExecError _ _ => true
  | ExecHang => true
  end.

(** The [parsed_content] fields of a list of output items. *)
Definition parsed_contents (r : result (list value) * World)
  : result (list (option value)) :=
  match r with
  | (Ok outs, w') =>
      Ok (List.map (fun out => field_of (heap w') out "parsed_content") outs)
  | (Throw e, _) => Throw e
  end.

(** The world in which [search_and_parse] calls [search]. *)
Definition search_world (query : string) (w : World) : World :=
  mkWorld (heap w) (files w)
    (trace w ++ [EvLog Info ("SearXNGClient: Starting search and parse for query "
                             +:+ JsString.dq +:+ query +:+ JsString.dq)]).


(** The conversion of the [url] field of [item] into the text of the
    warning for an invalid URL throws. *)
Definition url_conversion_throws (h : list obj) (item : value) : bool :=
  match item with
  | JObj l =>
      match fields_at h l !! "url" with
      | Some (JStr _) => false
      | Some v => if to_String h v is Throw _ then true else false
      | None => false
      end
  | _ => false
  end.

(** The [url] field of [item], when [item] has one, is neither an object
    nor an array. *)
Definition url_is_primitive (h : list obj) (item : value) : bool :=
  match item with
  | JObj l =>
      match fields_at h l !! "url" with
      | Some (JArr _) | Some (JObj _) => false
      | _ => true
      end
  | _ => true
  end.

(** The results gathered so far, followed by what a run adds to them. *)
Definition appended (acc : list value) (r : result (list value))
  : result (list value) :=
  match r with
  | Ok delta => Ok (acc ++ delta)
  | Throw e => Throw e
  end.

(** * Further observations *)

(** The client with another value in its [parsingTimeout] field. *)
Definition with_parsingTimeout (seconds : N) (self : SearXNGClient)
  : SearXNGClient :=
  mkClient (base_url self) (headers self) (default_engines self)
    (num_results self) (timeout self) seconds (max_content_length self)
    (max_workers self) (pdfExtractionTimeout self).

(** The URL and the query parameters of the request that [search] makes. *)
Definition search_url (self : SearXNGClient) : string :=
  base_url self +:+ "/search".

Definition search_params (self : SearXNGClient) (query language : string)
  : list (string * string) :=
  [("q", query); ("format", "json"); ("language", language);
   ("engines", String.concat "," (default_engines self));
   ("results", pretty (num_results self))].

(** The world in which the request of [search], started in [w], reaches
    the network. *)
Definition search_request_world (self : SearXNGClient) (query : string)
    (w : World) : World :=
  mkWorld (heap w) (files w)
    (trace w ++ [EvLog Info ("SearXNGClient: Performing search with query "
                             +:+ JsString.dq +:+ query +:+ JsString.dq);
                 EvHttpGet (search_url self)]).

(** The search endpoint answered with a status in 200..299. *)
Definition search_succeeds (o : NetOutcome json) : bool :=
  match o with
  | NetResponse st _ _ => ((200 <=? st) && (st <? 300))%Z
  | _ => false
  end.

(** The paths [_extract_text_from_pdf] can give to its temporary file. *)
Definition temp_shaped (path : string) : Prop :=
  exists now : N, path = tempFilePath_at now.

(** White space in a text: whether it starts with white space, whether it
    ends with white space, and whether every white-space code unit in it
    is a space that does not follow another white-space code unit
    ([prev_ws] tells what came before the text). *)
Definition starts_ws (s : string) : bool :=
  match s with
  | EmptyString => false
  | String c _ => JsString.is_ws c
  end.

Fixpoint ends_ws (s : string) : bool :=
  match s with
  | EmptyString => false
  | String c EmptyString => JsString.is_ws c
  | String _ s' => ends_ws s'
  end.

Fixpoint single_spaced (prev_ws : bool) (s : string) : bool :=
  match s with
  | EmptyString => true
  | String c s' =>
      if JsString.is_ws c
      then Ascii.eqb c " " && negb prev_ws && single_spaced true s'
      else single_spaced false s'
  end.

Definition ws_normalized (s : string) : bool :=
  negb (starts_ws s) && negb (ends_ws s) && single_spaced false s.

(** The world in which [_extract_text_from_pdf], started in [w], asks
    for the removal of its temporary file, after a run of pdf2txt.py that
    wrote [stderr] to its standard error. *)
Definition unlink_world (env : Env) (buffer : list Byte.byte)
    (stderr : string) (w : World) : World :=
  let path := tempFilePath_at (date_now env w) in
  let command := "pdf2txt.py " +:+ JsString.dq +:+ path +:+ JsString.dq in
  mkWorld (heap w) (<[path := buffer]> (files w))
    (trace w ++ [EvWriteFile path; EvLog Info ("Executing: " +:+ command);
                 EvExec command]
             ++ (if JsString.nonempty stderr
                 then [EvLog Warn ("pdf2txt.py stderr: " +:+ stderr)]
                 else [])
             ++ [EvUnlink path]).

(** The world in which [_parse_content], started in [w], calls the PDF
    extractor. *)
Definition pdf_world (url : string) (w : World) : World :=
  mkWorld (heap w) (files w)
    (trace w ++ [EvLog Info ("SearXNGClient: Detected PDF content for URL: "
                             +:+ url)]).

(** The commands run in a subprocess. *)
Definition execs (evs : list event) : list string :=
  omap (fun e => if e is EvExec c then Some c else None) evs.

(** The network never serves a document whose content type contains
    application/pdf. *)
Definition never_pdf (env : Env) : Prop :=
  forall w u st hs d,
    net_bytes env w u = NetResponse st hs d ->
    is_pdf (mkResponse st hs d) = false.

(** The world [search_and_parse] leaves when it returns the results of
    [fetch_and_parse_results], which left [w]. *)
Definition completed_world (query : string) (w : World) : World :=
  mkWorld (heap w) (files w)
    (trace w ++ [EvLog Info ("SearXNGClient: Successfully completed search and parse for query "
                             +:+ JsString.dq +:+ query +:+ JsString.dq)]).

(** * Properties *)

(** ** Strings *)

Lemma substring_0_length (n : nat) (s : string) :
  String.length (String.substring 0 n s) = Nat.min n (String.length s).
Proof.
  revert n; induction s as [|c s IH]; intros [|n]; simpl; auto.
Qed.

Lemma slice0_length (n : N) (s : string) :
  (N.of_nat (String.length (JsString.slice0 n s)) <= n)%N.
Proof.
  unfold JsString.slice0. rewrite substring_0_length. lia.
Qed.

Lemma nonempty_length (s : string) :
  JsString.nonempty s = true <-> 0 < String.length s.
Proof.
  destruct s; simpl; split; intros; (lia || congruence).
Qed.

Lemma http_gets_app (l1 l2 : list event) :
  http_gets (l1 ++ l2) = http_gets l1 ++ http_gets l2.
Proof. apply omap_app. Qed.

Section Properties.

Variable env : Env.
Variable self : SearXNGClient.

Ltac run :=
  cbv beta iota zeta delta
    [mbind M_bind mret M_ret try_catch throw logger emit get_world alloc
     set_heap race_timer template];
  cbn [heap files trace fst snd].

Ltac split_trace :=
  cbn [heap files trace]; rewrite <- ?app_assoc;
  eexists; split; [reflexivity|];
  rewrite ?http_gets_app; simpl; try reflexivity.

Lemma fetch_url_content_spec (url : string) (w : World) :
  exists r w',
    _fetch_url_content env url w = (Ok r, w')
    /\ heap w' = heap w /\ files w' = files w
    /\ (exists new, trace w' = trace w ++ new /\ http_gets new = [url])
    /\ r = match net_bytes env (request_world url w) url with
           | NetResponse st hs d =>
               if validateStatus st then Some (mkResponse st hs d) else None
           | _ => None
           end.
Proof.
  unfold _fetch_url_content, axios_get_bytes, request_world. run.
  rewrite <- !app_assoc. simpl.
  destruct (net_bytes env _ url) as [st hs d|m|m].
  - destruct (validateStatus st); run.
    all: do 2 eexists; repeat split; try reflexivity; split_trace.
  - run. do 2 eexists; repeat split; try reflexivity; split_trace.
  - run. do 2 eexists; repeat split; try reflexivity; split_trace.
Qed.

Ltac case_oracles :=
  repeat (run; simpl;
    match goal with
    | |- context [match ?x with _ => _ end] =>
        lazymatch x with
        | context [match _ with _ => _ end] => fail
        | _ => destruct x eqn:?
        end
    end); run; simpl.

(** When the write of the temporary file succeeds and the race against
    the timer rejects, [_extract_text_from_pdf] returns null and the file
    is still there. *)
Lemma extract_text_from_pdf_leaves_file (url : string)
    (buffer : list Byte.byte) (w : World) :
  let path := tempFilePath_at (date_now env w) in
  let command := "pdf2txt.py " +:+ JsString.dq +:+ path +:+ JsString.dq in
  fs_write_error env (write_world env w) path = None ->
  race_rejects (pdfExtractionTimeout self * 1000)
    (exec_outcome env (exec_world env buffer w) command) = true ->
  exists w',
    _extract_text_from_pdf env self url buffer w = (Ok None, w')
    /\ files w' !! path = Some buffer.
Proof.
  intros path command Hwrite Hrace.
  unfold _extract_text_from_pdf, fs_writeFile, execAsync. run.
  fold path. unfold write_world in Hwrite. fold path in Hwrite.
  rewrite Hwrite. run. rewrite <- !app_assoc. simpl.
  fold command. unfold exec_world in Hrace. fold path command in Hrace.
  destruct (exec_outcome env _ command) as [t code out err|t m|]; simpl in Hrace.
  - destruct (t <=? _)%N; simpl in Hrace.
    + destruct (code =? 0)%Z; [discriminate|]. run.
      eexists. split; [reflexivity|]. apply lookup_insert_eq.
    + run. eexists. split; [reflexivity|]. apply lookup_insert_eq.
  - destruct (t <=? _)%N; run;
      (eexists; split; [reflexivity|]; apply lookup_insert_eq).
  - run. eexists. split; [reflexivity|]. apply lookup_insert_eq.
Qed.

Lemma extract_text_from_pdf_spec (url : string) (buffer : list Byte.byte)
    (w : World) :
  exists r w',
    _extract_text_from_pdf env self url buffer w = (Ok r, w')
    /\ heap w' = heap w
    /\ (exists new, trace w' = trace w ++ new /\ http_gets new = []
                    /\ writes new = [tempFilePath_at (date_now env w)]
                    /\ tier1_calls new = [] /\ tier2_calls new = []).
Proof.
  unfold _extract_text_from_pdf, fs_writeFile, fs_unlink, execAsync.
  case_oracles.
  all: do 2 eexists; repeat split; try reflexivity.
  all: rewrite <- ?app_assoc; eexists; split; [reflexivity|].
  all: repeat split; reflexivity.
Qed.

Lemma parse_content_spec (response : AxiosResponse (list Byte.byte))
    (url : string) (w : World) :
  let html := Buffer_toString env (data response) in
  exists r w' new,
    _parse_content env self response url w = (Ok r, w')
    /\ heap w' = heap w
    /\ trace w' = trace w ++ new
    /\ http_gets new = []
    /\ negb (bool_decide (writes new = [])) = is_pdf response
    /\ tier1_calls new =
         (if is_pdf response then []
          else if JsString.nonempty html then [(html, url)] else [])
    /\ tier2_calls new =
         (if is_pdf response then []
          else if JsString.nonempty html
                  && tier1_empty (readability env html url)
               then [html] else [])
    /\ (forall pc, r = Some pc ->
          (N.of_nat (String.length (content pc)) <= max_content_length self)%N)
    /\ (is_pdf response = false ->
        tier1_empty (readability env html url) = true ->
        tier2_text (cheerio_body_text env html) = Some EmptyString ->
        r = None).
Proof.
  intros html. unfold _parse_content, is_pdf, header_content_type.
  fold (header_content_type response).
  destruct (JsString.includes "application/pdf" _) eqn:Hpdf.
  - run.
    destruct (extract_text_from_pdf_spec url (data response)
                (mkWorld (heap w) (files w)
                   (trace w ++ [EvLog Info ("SearXNGClient: Detected PDF content for URL: " +:+ url)])))
      as (r & w1 & Hrun & Hheap & new & Htr & Hget & Hwr & Ht1 & Ht2).
    cbn [heap files trace] in *. rewrite Hrun.
    destruct r as [[|c t]|]; run; do 3 eexists.
    all: split; [reflexivity|]; split; [simpl; congruence|].
    all: split; [simpl; rewrite Htr, <- ?app_assoc; reflexivity|].
    all: unfold writes, tier1_calls, tier2_calls in *;
         rewrite ?http_gets_app, ?omap_app, ?Hget, ?Hwr, ?Ht1, ?Ht2; simpl.
    all: repeat split; try reflexivity; try congruence.
    intros pc [= <-]. simpl. apply slice0_length.
  - fold html. unfold parsing_executor, Readability_parse, cheerio_text.
    unfold tier2_text.
    destruct (JsString.nonempty html) eqn:Hhtml; simpl.
    + case_oracles.
      all: do 3 eexists.
      all: split; [reflexivity|]; split; [reflexivity|].
      all: split; [simpl; rewrite <- ?app_assoc; reflexivity|].
      all: simpl; repeat split; try reflexivity; try congruence.
      all: try (intros pc [= <-]; simpl; apply slice0_length).
      all: intros _ _ [= Hempty]; rewrite Hempty in *; discriminate.
    + run. do 3 eexists.
      split; [reflexivity|]; split; [reflexivity|].
      split; [simpl; rewrite <- ?app_assoc; reflexivity|].
      simpl; repeat split; try reflexivity; try congruence.
Qed.

(** ** The loop of [fetch_and_parse_results] *)

Lemma loop_body_spec (item : value) (acc : list value) (w : World) :
  exists r w' new,
    loop_body env self item acc w = (r, w')
    /\ trace w' = trace w ++ new
    /\ http_gets new =
       match valid_url_of env (heap w) item with Some u => [u] | None => [] end
    /\ ((r = Ok acc /\ heap w' = heap w)
        \/ (exists out,
              r = Ok (acc ++ [out])
              /\ (exists fs, heap w' = heap w ++ [fs])
              /\ enriched env self (heap w) (heap w') item out)
        \/ (exists e,
              r = Throw e /\ heap w' = heap w
              /\ url_conversion_throws (heap w) item = true)).
Proof.
  unfold loop_body, loop_body_with, valid_url_of, url_conversion_throws,
    get_prop.
  assert (Hskip : forall (e : event)
                          (P Q : result (list value) -> World -> Prop),
            http_gets [e] = [] ->
            exists r w' new,
              (Ok acc, mkWorld (heap w) (files w) (trace w ++ [e])) = (r, w')
              /\ trace w' = trace w ++ new
              /\ http_gets new = []
              /\ ((r = Ok acc /\ heap w' = heap w) \/ P r w' \/ Q r w')).
  { intros e P Q He.
    exists (Ok acc), (mkWorld (heap w) (files w) (trace w ++ [e])), [e].
    repeat split; auto. }
  destruct item as [| |[|]|z|s|items|l]; simpl.
  1-7: rewrite ?orb_true_r; run; simpl; eapply Hskip; reflexivity.
  run.
  destruct (fields_at (heap w) l !! "url") as [[| |b|z|u|items|l0]|] eqn:Hurl.
  1-4,8: simpl; run; simpl; eapply Hskip; reflexivity.
  2,3: cbv beta iota zeta delta
         [from_option id mbind M_bind mret M_ret logger emit template];
       cbn [heap files trace];
       match goal with
       | |- context [to_String ?h ?v] =>
           destruct (to_String h v) as [msg|e] eqn:Hconv
       end;
       [eapply Hskip; reflexivity|];
       exists (Throw e), w, []; rewrite app_nil_r;
       (split; [reflexivity|]); (split; [reflexivity|]);
       (split; [reflexivity|]); right; right; exists e; auto.
  simpl.
  destruct (_is_valid_url env u) eqn:Hvalid; simpl.
  2: { run; simpl; eapply Hskip; reflexivity. }
  clear Hskip. run.
  destruct (fetch_url_content_spec u w)
    as (r & w1 & Hfetch & Hheap1 & _ & (new1 & Htr1 & Hget1) & _).
  rewrite Hfetch.
  destruct r as [response|].
  2: { exists (Ok acc), w1, new1. repeat split; auto. }
  destruct (parse_content_spec response u w1)
    as (r & w2 & new2 & Hparse & Hheap2 & Htr2 & Hget2 & _ & _ & _ & Hlen & _).
  rewrite Hparse.
  assert (Htr : trace w2 = trace w ++ (new1 ++ new2))
    by (rewrite Htr2, Htr1, app_assoc; reflexivity).
  assert (Hget : http_gets (new1 ++ new2) = [u])
    by (rewrite http_gets_app, Hget1, Hget2; reflexivity).
  destruct r as [pc|].
  2: { exists (Ok acc), w2, (new1 ++ new2). repeat split; auto.
       left. split; congruence. }
  destruct (JsString.nonempty (content pc)) eqn:Hne.
  2: { exists (Ok acc), w2, (new1 ++ new2). repeat split; auto.
       left. split; congruence. }
  run. do 3 eexists. split; [reflexivity|].
  split; [cbn [trace]; exact Htr|]. split; [exact Hget|].
  right. left. eexists. split; [reflexivity|]. cbn [heap].
  rewrite Hheap2, Hheap1.
  split; [eexists; reflexivity|].
  unfold fields_at in Hurl.
  destruct (heap w !! l) as [fs|] eqn:Hl; simpl in Hurl; [|discriminate].
  exists l, fs, u, (length (heap w)), (content pc).
  repeat split; auto.
  - apply lookup_app_l_Some. exact Hl.
  - unfold spread, fields_at. rewrite Hl. simpl.
    rewrite lookup_app_r by lia. rewrite Nat.sub_diag. reflexivity.
  - apply nonempty_length. exact Hne.
  - exists w, response, w1, pc, w2. auto.
Qed.

Lemma enriched_mono (h0 h1 h' h'' : list obj) (item out : value) :
  enriched env self h1 h' item out ->
  length h0 <= length h1 -> h' `prefix_of` h'' ->
  enriched env self h0 h'' item out.
Proof.
  intros (l & fs & u & l' & c & -> & Hl & Hu & Hv & -> & Hfresh & Hl' & Hc)
         Hlen Hpre.
  exists l, fs, u, l', c. repeat split; try tauto.
  - eapply prefix_lookup_Some; eauto.
  - lia.
  - eapply prefix_lookup_Some; eauto.
Qed.

Lemma valid_url_of_prefix (h h1 : list obj) (item : value) :
  closed h [item] -> h `prefix_of` h1 ->
  valid_url_of env h1 item = valid_url_of env h item.
Proof.
  intros Hc [k ->]. apply Forall_inv in Hc.
  destruct item; try reflexivity. simpl.
  unfold fields_at. rewrite lookup_app_l by exact Hc. reflexivity.
Qed.

Lemma closed_weaken (h h1 : list obj) (items : list value) :
  closed h items -> h `prefix_of` h1 -> closed h1 items.
Proof.
  intros Hc [k ->]. unfold closed in *.
  eapply Forall_impl; [exact Hc|].
  intros [] ?; auto. rewrite length_app. lia.
Qed.

Lemma omap_valid_url_of_prefix (h h1 : list obj) (items : list value) :
  closed h items -> h `prefix_of` h1 ->
  omap (valid_url_of env h1) items = omap (valid_url_of env h) items.
Proof.
  intros Hc Hpre. induction items as [|x items IH]; [reflexivity|].
  apply Forall_cons in Hc as [Hx Hc].
  change (x :: items) with ([x] ++ items). rewrite !omap_app, IH by auto.
  f_equal. simpl. rewrite (valid_url_of_prefix h h1 x); auto.
  constructor; auto.
Qed.

Lemma url_is_primitive_converts (h : list obj) (item : value) :
  url_is_primitive h item = true -> url_conversion_throws h item = false.
Proof.
  unfold url_is_primitive, url_conversion_throws.
  destruct item as [| |b|z|s|items|l]; try reflexivity.
  destruct (fields_at h l !! "url") as [[| |b|z|u|items|l0]|];
    try reflexivity; discriminate.
Qed.

Lemma url_is_primitive_prefix (h h1 : list obj) (items : list value) :
  closed h items -> h `prefix_of` h1 ->
  Forall (fun x => url_is_primitive h x = true) items ->
  Forall (fun x => url_is_primitive h1 x = true) items.
Proof.
  intros Hc [k ->] Hp. induction items as [|x items IH]; [constructor|].
  apply Forall_cons in Hc as [Hx Hc]. apply Forall_cons in Hp as [Hpx Hp].
  constructor; [|apply IH; assumption].
  destruct x; try reflexivity. simpl in *.
  unfold fields_at in *. rewrite lookup_app_l by exact Hx. exact Hpx.
Qed.

Lemma for_of_spec (items : list value) :
  forall (acc : list value) (w : World),
  exists r w' new,
    for_of env self items acc w = (r, w')
    /\ heap w `prefix_of` heap w'
    /\ trace w' = trace w ++ new
    /\ (forall res, r = Ok res ->
        exists outs kept,
          res = acc ++ outs
          /\ sublist kept items
          /\ Forall2 (enriched env self (heap w) (heap w')) kept outs)
    /\ (closed (heap w) items -> (exists res, r = Ok res) ->
        http_gets new = omap (valid_url_of env (heap w)) items)
    /\ (closed (heap w) items ->
        Forall (fun x => url_is_primitive (heap w) x = true) items ->
        exists res, r = Ok res).
Proof.
  unfold for_of.
  induction items as [|x rest IH]; intros acc w.
  - exists (Ok acc), w, []. simpl. rewrite !app_nil_r.
    split; [reflexivity|]. split; [reflexivity|]. split; [reflexivity|].
    split; [|split; [reflexivity|eauto]].
    intros res [= <-]. exists [], []. rewrite app_nil_r.
    repeat split; constructor.
  - destruct (loop_body_spec x acc w)
      as (r1 & w1 & new1 & Hrun & Htr1 & Hget1 & Hcase).
    unfold loop_body in Hrun.
    destruct Hcase as [[-> Hheap]|[(out & -> & [fs Hheap] & Henr)
                                  |(e & -> & Hheap & Hthrow)]].
    + destruct (IH acc w1)
        as (r & w' & new2 & Hrest & Hpre & Htr2 & Hout & Hget2 & Hok).
      exists r, w', (new1 ++ new2).
      simpl. unfold mbind, M_bind. rewrite Hrun, Hrest.
      rewrite Hheap in *.
      split; [reflexivity|]. split; [exact Hpre|].
      split; [rewrite Htr2, Htr1, app_assoc; reflexivity|].
      split; [|split].
      * intros res Hres. destruct (Hout res Hres) as (outs & kept & H1 & H2 & H3).
        exists outs, kept. split; [exact H1|].
        split; [apply sublist_cons; exact H2|exact H3].
      * intros Hc Hres. apply Forall_cons in Hc as [Hx Hc].
        rewrite http_gets_app, Hget1, (Hget2 Hc Hres).
        destruct (valid_url_of env (heap w) x); reflexivity.
      * intros Hc Hp. apply Forall_cons in Hc as [Hx Hc].
        apply Forall_cons in Hp as [Hpx Hp]. auto.
    + destruct (IH (acc ++ [out]) w1)
        as (r & w' & new2 & Hrest & Hpre & Htr2 & Hout & Hget2 & Hok).
      assert (Hpre1 : heap w `prefix_of` heap w1)
        by (rewrite Hheap; apply prefix_app_r; reflexivity).
      exists r, w', (new1 ++ new2).
      simpl. unfold mbind, M_bind. rewrite Hrun, Hrest.
      split; [reflexivity|].
      split; [etransitivity; eassumption|].
      split; [rewrite Htr2, Htr1, app_assoc; reflexivity|].
      split; [|split].
      * intros res Hres. destruct (Hout res Hres) as (outs & kept & H1 & H2 & H3).
        exists (out :: outs), (x :: kept).
        split; [rewrite H1, <- app_assoc; reflexivity|].
        split; [apply sublist_skip; exact H2|].
        constructor.
        -- eapply enriched_mono; [exact Henr|lia|exact Hpre].
        -- eapply Forall2_impl; [exact H3|].
           intros item o He. eapply enriched_mono; [exact He| |reflexivity].
           rewrite Hheap, length_app. lia.
      * intros Hc Hres. apply Forall_cons in Hc as [Hx Hc].
        rewrite http_gets_app, Hget1, Hget2
          by (try assumption; eapply closed_weaken; eassumption).
        rewrite (omap_valid_url_of_prefix (heap w) (heap w1)) by assumption.
        destruct (valid_url_of env (heap w) x); reflexivity.
      * intros Hc Hp. apply Forall_cons in Hc as [Hx Hc].
        apply Forall_cons in Hp as [Hpx Hp].
        apply Hok; [eapply closed_weaken; eassumption|].
        eapply url_is_primitive_prefix; eassumption.
    + exists (Throw e), w1, new1.
      simpl. unfold mbind, M_bind. rewrite Hrun.
      split; [reflexivity|]. split; [rewrite Hheap; reflexivity|].
      split; [exact Htr1|].
      split; [intros res Hres; discriminate Hres|].
      split; [intros _ [res Hres]; discriminate Hres|].
      intros _ Hp. apply Forall_cons in Hp as [Hpx _].
      apply url_is_primitive_converts in Hpx. congruence.
Qed.

Lemma fetch_and_parse_results_spec (results : value) (w : World) :
  exists r w' new,
    fetch_and_parse_results env self results w = (r, w')
    /\ heap w `prefix_of` heap w'
    /\ trace w' = trace w ++ new
    /\ (forall outs, r = Ok outs ->
        exists kept,
          sublist kept (input_items results)
          /\ Forall2 (enriched env self (heap w) (heap w')) kept outs)
    /\ (closed (heap w) (input_items results) -> (exists outs, r = Ok outs) ->
        http_gets new = omap (valid_url_of env (heap w)) (input_items results))
    /\ (closed (heap w) (input_items results) ->
        Forall (fun x => url_is_primitive (heap w) x = true)
          (input_items results) ->
        exists outs, r = Ok outs).
Proof.
  unfold fetch_and_parse_results, fetch_and_parse_results_with.
  destruct results as [| |b|z|s|items|l]; simpl; rewrite ?orb_true_r.
  1-5,7: run; exists (Ok []); do 2 eexists; split; [reflexivity|];
         cbn [heap trace];
         split; [reflexivity|]; split; [reflexivity|];
         (split; [intros outs [= <-]; exists []; split; constructor|]);
         split; [reflexivity|eauto].
  destruct (for_of_spec items [] w)
    as (r & w' & new & Hrun & Hpre & Htr & Hout & Hget & Hok).
  exists r, w', new. split; [exact Hrun|].
  split; [exact Hpre|]. split; [exact Htr|]. split; [|split; assumption].
  intros outs Hres. destruct (Hout outs Hres) as (outs' & kept & H1 & H2 & H3).
  simpl in H1. subst outs'. exists kept. auto.
Qed.

Lemma enriched_fields (h h' : list obj) (item out : value) :
  enriched env self h h' item out ->
  exists (fs : obj) (c : string),
    (forall k, field_of h' item k = fs !! k)
    /\ (forall k, field_of h' out k = <["parsed_content" := JStr c]> fs !! k)
    /\ 0 < String.length c
    /\ (N.of_nat (String.length c) <= max_content_length self)%N.
Proof.
  intros (l & fs & u & l' & c & -> & Hl & Hu & Hv & -> & Hfresh & Hl' & Hpos
          & Hle & _).
  exists fs, c. unfold field_of, fields_at. rewrite Hl, Hl'. simpl. auto.
Qed.

Lemma enriched_url (h h' : list obj) (item out : value) :
  enriched env self h h' item out ->
  is_Some (url_of h' out) /\ url_of h' out = url_of h' item.
Proof.
  intros He. pose proof He as (fs & c & Hi & Ho & _)%enriched_fields.
  destruct He as (l & fs' & u & l' & c' & -> & Hl & Hu & _).
  unfold url_of. rewrite Ho, Hi, lookup_insert_ne by discriminate.
  assert (fs !! "url" = Some (JStr u)) as ->.
  { rewrite <- Hi. unfold field_of, fields_at. rewrite Hl. exact Hu. }
  split; [eexists|]; reflexivity.
Qed.

(** ** The loop, for arbitrary callees *)

Section Callees.

Variable fetch_ : string -> M (option (AxiosResponse (list Byte.byte))).
Variable parse_ : AxiosResponse (list Byte.byte) -> string
                  -> M (option ParsedContent).

(** A turn of the loop only appends to the results gathered so far, and
    what it appends, or the exception it throws, does not depend on
    them. *)
Lemma loop_body_with_appends (item : value) (w : World) :
  exists r w',
    forall acc,
      loop_body_with env fetch_ parse_ item acc w = (appended acc r, w').
Proof.
  assert (Hskip : forall W : World,
            exists (r : result (list value)) (w' : World),
              forall acc : list value, (Ok acc, W) = (appended acc r, w')).
  { intros W. exists (Ok []), W. intros acc. simpl. rewrite app_nil_r.
    reflexivity. }
  assert (Hthrow : forall (e : exn) (W : World),
            exists (r : result (list value)) (w' : World),
              forall acc : list value,
                (@Throw (list value) e, W) = (appended acc r, w')).
  { intros e W. exists (Throw e), W. intros acc. reflexivity. }
  unfold loop_body_with, get_prop.
  destruct item as [| |[|]|z|s|items|l]; simpl; rewrite ?orb_true_r; run;
    simpl; try apply Hskip.
  destruct (fields_at (heap w) l !! "url") as [[| |b|z|u|items|l0]|].
  1-4,8: simpl; run; simpl; apply Hskip.
  2,3: cbv beta iota zeta delta
         [from_option id mbind M_bind mret M_ret logger emit template];
       cbn [heap files trace];
       match goal with
       | |- context [to_String ?h ?v] => destruct (to_String h v) as [msg|e]
       end;
       [apply Hskip|apply Hthrow].
  simpl.
  destruct (_is_valid_url env u); simpl; run; try apply Hskip.
  destruct (fetch_ u w) as [[[response|]|e] w1]; run; try apply Hskip.
  destruct (parse_ response u w1) as [[[pc|]|e] w2]; run; try apply Hskip.
  destruct (JsString.nonempty (content pc)); run; try apply Hskip.
  exists (Ok [JObj (length (heap w2))]). eexists. intros acc. reflexivity.
Qed.

Lemma for_of_with_appends (items : list value) :
  forall w : World,
  exists r w',
    forall acc,
      for_of_with env fetch_ parse_ items acc w = (appended acc r, w').
Proof.
  induction items as [|x rest IH]; intros w.
  - exists (Ok []), w. intros acc. simpl. rewrite app_nil_r. reflexivity.
  - destruct (loop_body_with_appends x w) as (r1 & w1 & Hbody).
    destruct r1 as [delta|e].
    + destruct (IH w1) as (r & w' & Hrest).
      exists (appended delta r), w'. intros acc. simpl. unfold mbind, M_bind.
      rewrite Hbody. simpl. rewrite Hrest.
      destruct r as [outs|e]; simpl; [rewrite app_assoc|]; reflexivity.
    + exists (Throw e), w1. intros acc. simpl. unfold mbind, M_bind.
      rewrite Hbody. reflexivity.
Qed.

(** The loop over [pre ++ rest] is the loop over [pre] followed by the
    loop over [rest]; when the first throws, the second is not run. *)
Lemma for_of_with_app (pre rest : list value) :
  forall (acc : list value) (w : World),
    for_of_with env fetch_ parse_ (pre ++ rest) acc w
    = (acc1 ← for_of_with env fetch_ parse_ pre acc;
       for_of_with env fetch_ parse_ rest acc1) w.
Proof.
  induction pre as [|x pre IH]; intros acc w; [reflexivity|].
  simpl. unfold mbind, M_bind in *.
  destruct (loop_body_with env fetch_ parse_ x acc w) as [[acc'|e] w1];
    [apply IH|reflexivity].
Qed.

End Callees.

(** ** The claims *)

(** C1.  Every item of a list returned by [fetch_and_parse_results]
    carries a [parsed_content] string of length strictly greater than 0
    and at most [max_content_length]. *)
Theorem C1_parsed_content_nonempty_and_bounded
    (results : value) (w w' : World) (outs : list value) :
  fetch_and_parse_results env self results w = (Ok outs, w') ->
  Forall (fun out =>
            exists c,
              field_of (heap w') out "parsed_content" = Some (JStr c)
              /\ 0 < String.length c
              /\ (N.of_nat (String.length c)
                  <= max_content_length self)%N) outs.
Proof.
  intros Hrun.
  destruct (fetch_and_parse_results_spec results w)
    as (r & w0 & new & Hrun0 & _ & _ & Hout & _).
  rewrite Hrun in Hrun0. injection Hrun0 as <- <-.
  destruct (Hout outs eq_refl) as (kept & _ & Hall). clear Hrun Hout.
  induction Hall as [|item out kept outs He _ IH]; [constructor|].
  constructor; [|exact IH].
  apply enriched_fields in He as (fs & c & _ & Ho & Hpos & Hle).
  exists c. rewrite Ho, lookup_insert_eq. auto.
Qed.

(** C2.  The output of [fetch_and_parse_results] is no longer than the
    input, the URL of every output item is the URL of an input item, and
    the output items follow the order of the input items they come
    from: they are the enrichments, one by one, of a subsequence [kept]
    of the input.  URLs are read in the heap left by the call, in which
    every object that existed before is unchanged. *)
Theorem C2_output_is_ordered_selection_of_input
    (results : value) (w w' : World) (outs : list value) :
  fetch_and_parse_results env self results w = (Ok outs, w') ->
  (forall l fs, heap w !! l = Some fs -> heap w' !! l = Some fs)
  /\ length outs <= length (input_items results)
  /\ Forall (fun out =>
               exists item,
                 item ∈ input_items results
                 /\ is_Some (url_of (heap w') out)
                 /\ url_of (heap w') out = url_of (heap w') item) outs
  /\ exists kept,
       sublist kept (input_items results)
       /\ Forall2 (fun item out =>
                     is_Some (url_of (heap w') out)
                     /\ url_of (heap w') out = url_of (heap w') item)
                  kept outs.
Proof.
  intros Hrun.
  destruct (fetch_and_parse_results_spec results w)
    as (r & w0 & new & Hrun0 & Hpre & _ & Hout & _).
  rewrite Hrun in Hrun0. injection Hrun0 as <- <-.
  destruct (Hout outs eq_refl) as (kept & Hsub & Hall). clear Hrun.
  split; [intros l fs Hl; eapply prefix_lookup_Some; eauto|].
  assert (Hurls : Forall2 (fun item out =>
                             is_Some (url_of (heap w') out)
                             /\ url_of (heap w') out = url_of (heap w') item)
                          kept outs).
  { eapply Forall2_impl; [exact Hall|]. intros item out.
    apply enriched_url. }
  split; [|split].
  - rewrite <- (Forall2_length _ _ _ Hall). apply sublist_length, Hsub.
  - assert (Hin : forall item, item ∈ kept -> item ∈ input_items results)
      by (intros item; apply (sublist_subseteq _ _ Hsub)).
    clear Hsub Hall Hout.
    induction Hurls as [|item out kept outs [Hs He] _ IH]; [constructor|].
    constructor.
    + exists item. split; [apply Hin; left|auto].
    + apply IH. intros item' Hi. apply Hin. right. exact Hi.
  - exists kept. auto.
Qed.

(** C7.  [_fetch_url_content] makes exactly one request for the URL and
    returns without throwing; on a network error, a timeout or a status
    outside 200..299 it returns null, and otherwise the response. *)
Theorem C7_single_fetch_attempt_never_throws (url : string) (w : World) :
  exists r w' new,
    _fetch_url_content env url w = (Ok r, w')
    /\ trace w' = trace w ++ new
    /\ http_gets new = [url]
    /\ r = match net_bytes env (request_world url w) url with
           | NetResponse st hs d =>
               if validateStatus st then Some (mkResponse st hs d) else None
           | NetFailure _ | NetOther _ => None
           end.
Proof.
  destruct (fetch_url_content_spec url w)
    as (r & w' & Hrun & _ & _ & (new & Htr & Hget) & Hr).
  exists r, w', new. auto.
Qed.

(** C4.  In the HTML branch of [_parse_content] (a content type that is
    not PDF, a non-empty document), Tier 1 runs once, the Cheerio
    fallback runs exactly when Tier 1 yields an empty or absent text,
    and the result is null when both tiers yield an empty text. *)
Theorem C4_fallback_iff_tier1_empty
    (response : AxiosResponse (list Byte.byte)) (url : string) (w : World) :
  let html := Buffer_toString env (data response) in
  is_pdf response = false ->
  JsString.nonempty html = true ->
  exists r w' new,
    _parse_content env self response url w = (Ok r, w')
    /\ trace w' = trace w ++ new
    /\ tier1_calls new = [(html, url)]
    /\ tier2_calls new =
         (if tier1_empty (readability env html url) then [html] else [])
    /\ (tier1_empty (readability env html url) = true ->
        tier2_text (cheerio_body_text env html) = Some EmptyString ->
        r = None).
Proof.
  intros html Hpdf Hhtml.
  destruct (parse_content_spec response url w)
    as (r & w' & new & Hrun & _ & Htr & _ & _ & Ht1 & Ht2 & _ & Hnull).
  fold html in Ht1, Ht2, Hnull. rewrite Hpdf, Hhtml in *. simpl in Ht2.
  exists r, w', new. repeat split; auto.
Qed.

(** C5, as the code has it.  [_parse_content] calls the PDF extractor
    if and only if the content-type header contains the substring
    application/pdf, compared case-sensitively (parameters around it do
    not matter); otherwise it takes the markup path, where Tier 1 runs
    as soon as the document is not empty.  It never throws. *)
Theorem C5_pdf_route_iff_header_includes_exact_media_type
    (response : AxiosResponse (list Byte.byte)) (url : string) (w : World) :
  exists r w' new,
    _parse_content env self response url w = (Ok r, w')
    /\ trace w' = trace w ++ new
    /\ pdf_extractor_called new =
       JsString.includes "application/pdf" (header_content_type response)
    /\ markup_extractor_called new =
       negb (JsString.includes "application/pdf"
               (header_content_type response))
       && JsString.nonempty (Buffer_toString env (data response)).
Proof.
  destruct (parse_content_spec response url w)
    as (r & w' & new & Hrun & _ & Htr & _ & Hw & Ht1 & _).
  exists r, w', new. repeat split; auto.
  unfold markup_extractor_called. rewrite Ht1. unfold is_pdf.
  destruct (JsString.includes _ _); [reflexivity|].
  destruct (JsString.nonempty _); reflexivity.
Qed.


(** C10.  When the loop reaches an input item that already has a
    [parsed_content] field, and the fetch of its URL and the extraction
    from the fetched document succeed in this very run, the loop appends
    a new object whose [parsed_content] is the content just extracted:
    the run over the whole batch is the run over the items after it,
    with that object put behind the output of the items before it.  In
    the heap left by the call the new object holds the extracted content
    under [parsed_content] and the other fields of the input item, and
    the input item still holds its old value. *)
Theorem C10_existing_parsed_content_is_overwritten
    (pre rest outs_pre : list value) (l : loc) (fs : obj) (old : value)
    (u : string) (response : AxiosResponse (list Byte.byte))
    (pc : ParsedContent) (w w0 w1 w2 : World) :
  let out := JObj (length (heap w0)) in
  let w3 :=
    mkWorld (heap w0 ++ [<["parsed_content" := JStr (content pc)]> fs])
      (files w2) (trace w2) in
  fetch_and_parse_results env self (JArr pre) w = (Ok outs_pre, w0) ->
  heap w0 !! l = Some fs ->
  fs !! "parsed_content" = Some old ->
  fs !! "url" = Some (JStr u) ->
  _is_valid_url env u = true ->
  _fetch_url_content env u w0 = (Ok (Some response), w1) ->
  _parse_content env self response u w1 = (Ok (Some pc), w2) ->
  JsString.nonempty (content pc) = true ->
  fetch_and_parse_results env self (JArr (pre ++ JObj l :: rest)) w
  = (outs ← fetch_and_parse_results env self (JArr rest);
     mret (outs_pre ++ out :: outs)) w3
  /\ forall outs w',
       fetch_and_parse_results env self (JArr rest) w3 = (Ok outs, w') ->
       field_of (heap w') out "parsed_content" = Some (JStr (content pc))
       /\ field_of (heap w') (JObj l) "parsed_content" = Some old
       /\ forall k, k <> "parsed_content" ->
                    field_of (heap w') out k = fs !! k.
Proof.
  intros out w3 Hpre Hl Hold Hurl Hvalid Hfetch Hparse Hne.
  assert (Hheap1 : heap w1 = heap w0).
  { destruct (fetch_url_content_spec u w0) as (r & w1' & Hrun & Hh & _).
    rewrite Hfetch in Hrun. injection Hrun as <- <-. exact Hh. }
  assert (Hheap2 : heap w2 = heap w0).
  { destruct (parse_content_spec response u w1)
      as (r & w2' & new & Hrun & Hh & _).
    rewrite Hparse in Hrun. injection Hrun as <- <-. congruence. }
  assert (Hbody : forall acc,
             loop_body_with env (_fetch_url_content env)
               (_parse_content env self) (JObj l) acc w0
             = (Ok (acc ++ [out]), w3)).
  { intros acc. unfold loop_body_with, get_prop, fields_at. simpl. run.
    rewrite Hl. simpl. rewrite Hurl. simpl. rewrite Hvalid. simpl. run.
    rewrite Hfetch, Hparse, Hne. run.
    unfold spread, fields_at, out, w3. rewrite Hheap2, Hl. reflexivity. }
  split.
  - unfold fetch_and_parse_results, fetch_and_parse_results_with in *.
    simpl in *. rewrite for_of_with_app. unfold mbind, M_bind at 1.
    rewrite Hpre. simpl. unfold mbind, M_bind. rewrite Hbody.
    destruct (for_of_with_appends (_fetch_url_content env)
                (_parse_content env self) rest w3) as (r & w' & Hrest).
    rewrite (Hrest (outs_pre ++ [out])), (Hrest []).
    destruct r as [outs|e]; simpl; [|reflexivity].
    unfold mret, M_ret. rewrite <- app_assoc. reflexivity.
  - intros outs w' Hrest.
    destruct (fetch_and_parse_results_spec (JArr rest) w3)
      as (r & w'' & new & Hrun & Hprefix & _).
    rewrite Hrest in Hrun. injection Hrun as <- <-.
    assert (Hout : heap w' !! length (heap w0)
                   = Some (<["parsed_content" := JStr (content pc)]> fs)).
    { eapply prefix_lookup_Some; [|exact Hprefix]. unfold w3. cbn [heap].
      rewrite lookup_app_r by lia. rewrite Nat.sub_diag. reflexivity. }
    assert (Hin : heap w' !! l = Some fs).
    { eapply prefix_lookup_Some; [|exact Hprefix]. unfold w3. cbn [heap].
      apply lookup_app_l_Some. exact Hl. }
    unfold out, field_of, fields_at. rewrite Hout, Hin. simpl.
    split; [apply lookup_insert_eq|]. split; [exact Hold|].
    intros k Hk. apply lookup_insert_ne.
    intros Heq. apply Hk. symmetry. exact Heq.
Qed.

Lemma search_and_parse_with_spec
    (search_ : string -> string -> M value)
    (fetch_and_parse_results_ : value -> M (list value))
    (query language : string) (w : World) :
  exists outs w',
    search_and_parse_with search_ fetch_and_parse_results_ query language w
    = (Ok outs, w')
    /\ (forall e w1,
          search_ query language (search_world query w) = (Throw e, w1) ->
          outs = [])
    /\ (forall v w1,
          search_ query language (search_world query w) = (Ok v, w1) ->
          results_array (heap w1) v = None ->
          outs = [])
    /\ (forall v w1 items e w2,
          search_ query language (search_world query w) = (Ok v, w1) ->
          results_array (heap w1) v = Some items ->
          fetch_and_parse_results_ (JArr items) w1 = (Throw e, w2) ->
          outs = []).
Proof.
  unfold search_and_parse_with, search_world, results_array, field_of,
    get_prop. run.
  destruct (search_ query language _) as [[v|e] w1].
  2: { run. do 2 eexists. split; [reflexivity|].
       repeat split; intros; congruence. }
  assert (Hnil : forall (P Q R : list value -> Prop) (w2 : World),
            P [] -> Q [] -> R [] ->
            exists outs w',
              (Ok [], w2) = (Ok outs, w') /\ P outs /\ Q outs /\ R outs).
  { intros P Q R w2 HP HQ HR. exists [], w2. auto. }
  destruct v as [| |[|]|z|s|items|l]; simpl; rewrite ?orb_true_r; run;
    try (apply Hnil; intros; reflexivity).
  destruct (fields_at (heap w1) l !! "results")
    as [[| |[|]|z|s|items|l0]|] eqn:Hres;
    simpl; rewrite ?orb_true_r; run; try (apply Hnil; intros; reflexivity).
  clear Hnil.
  destruct (fetch_and_parse_results_ (JArr items) w1) as [[outs|e] w2] eqn:Hfpr;
    run; do 2 eexists; (split; [reflexivity|]).
  - repeat split.
    + intros; congruence.
    + intros v0 w3 [= <- <-]. rewrite Hres. discriminate.
    + intros v0 w3 items' e w4 [= <- <-]. rewrite Hres.
      intros [= <-]. rewrite Hfpr. discriminate.
  - repeat split; reflexivity.
Qed.

End Properties.

(** ** The claims on the concrete web *)

(** C3.  [_extract_text_from_pdf] removes its temporary file only on the
    path where pdf2txt.py succeeds.  When the subprocess exits with a
    non-zero code, and when it outlasts the timeout, the method returns
    null without a call to [unlink], and the file it wrote is still
    there. *)
Theorem C3_temp_file_remains_after_failed_extraction :
  (exists w',
      _extract_text_from_pdf (Scenario.env_with Scenario.pdf_fails)
        new_SearXNGClient "https://b.test/doc.pdf" Scenario.pdf_bytes
        Scenario.world0 = (Ok None, w')
      /\ files w' !! Scenario.temp_path = Some Scenario.pdf_bytes
      /\ writes (trace w') = [Scenario.temp_path]
      /\ EvUnlink Scenario.temp_path ∉ trace w')
  /\ (exists w',
        _extract_text_from_pdf (Scenario.env_with Scenario.pdf_hangs)
          new_SearXNGClient "https://b.test/doc.pdf" Scenario.pdf_bytes
          Scenario.world0 = (Ok None, w')
        /\ files w' !! Scenario.temp_path = Some Scenario.pdf_bytes
        /\ writes (trace w') = [Scenario.temp_path]
        /\ EvUnlink Scenario.temp_path ∉ trace w')
  /\ (exists w',
        _extract_text_from_pdf (Scenario.env_with Scenario.pdf_ok)
          new_SearXNGClient "https://b.test/doc.pdf" Scenario.pdf_bytes
          Scenario.world0 = (Ok (Some "Document text"), w')
        /\ files w' !! Scenario.temp_path = None
        /\ EvUnlink Scenario.temp_path ∈ trace w').
Proof.
  split; [|split].
  - eexists. split; [vm_compute; reflexivity|].
    split; [vm_compute; reflexivity|]. split; [vm_compute; reflexivity|].
    cbn [trace]. intros Hin. repeat (apply elem_of_cons in Hin as [Heq|Hin];
      [discriminate Heq|]). inversion Hin.
  - eexists. split; [vm_compute; reflexivity|].
    split; [vm_compute; reflexivity|]. split; [vm_compute; reflexivity|].
    cbn [trace]. intros Hin. repeat (apply elem_of_cons in Hin as [Heq|Hin];
      [discriminate Heq|]). inversion Hin.
  - eexists. split; [vm_compute; reflexivity|].
    split; [vm_compute; reflexivity|].
    cbn [trace]. repeat first [left|right].
Qed.

(** Witness of C4: a page whose body holds a script and blanks only.
    Tier 1 finds no article, the fallback runs and finds no text, and the
    result is null. *)
Lemma C4_witness :
  let response :=
    mkResponse 200 {[ "content-type" := "text/html; charset=utf-8" ]}
      (list_byte_of_string Scenario.blank_html) in
  is_pdf response = false
  /\ JsString.nonempty
       (Buffer_toString Scenario.env (data response)) = true
  /\ exists w' new,
       _parse_content Scenario.env new_SearXNGClient response
         "https://d.test" Scenario.world0 = (Ok None, w')
       /\ trace w' = trace Scenario.world0 ++ new
       /\ tier1_calls new = [(Scenario.blank_html, "https://d.test")]
       /\ tier2_calls new = [Scenario.blank_html].
Proof.
  intros response.
  assert (Hpdf : is_pdf response = false) by reflexivity.
  assert (Hhtml : JsString.nonempty
                    (Buffer_toString Scenario.env (data response)) = true)
    by reflexivity.
  split; [exact Hpdf|]. split; [exact Hhtml|].
  destruct (C4_fallback_iff_tier1_empty Scenario.env new_SearXNGClient
              response "https://d.test" Scenario.world0 Hpdf Hhtml)
    as (r & w' & new & Hrun & Htr & Ht1 & Ht2 & Hnull).
  exists w', new. rewrite Hrun, (Hnull eq_refl eq_refl).
  repeat split; assumption.
Defined.

(** C5 as stated fails: a document served as
    Application/PDF; charset=x matches the media type when case is
    ignored, yet [_parse_content] does not call the PDF extractor for it
    and runs the markup extractor on its bytes. *)
Lemma C5_counterexample :
  let response :=
    mkResponse 200 {[ "content-type" := "Application/PDF; charset=x" ]}
      Scenario.pdf_bytes in
  includes_ignoring_case "application/pdf" (header_content_type response)
  = true
  /\ exists r w',
       _parse_content Scenario.env new_SearXNGClient response
         "https://c.test/doc.pdf" Scenario.world0 = (r, w')
       /\ pdf_extractor_called (trace w') = false
       /\ markup_extractor_called (trace w') = true.
Proof.
  intros response. split; [vm_compute; reflexivity|].
  do 2 eexists. split; [vm_compute; reflexivity|].
  split; vm_compute; reflexivity.
Qed.

(** C6.  [fetch_and_parse_results] can throw.  For a batch holding an
    item whose [url] field is an object with a field of its own named
    [toString], the warning for the invalid URL is built outside the
    [try], its template literal throws a TypeError, and the exception
    leaves the method.  [search_and_parse] catches the same exception
    and returns the empty list. *)
Theorem C6_fetch_and_parse_results_throws_on_unconvertible_url :
  fetch_and_parse_results Scenario.env new_SearXNGClient (JArr [JObj 7])
    Scenario2.world1
  = (Throw (JsError "Cannot convert object to primitive value"),
     Scenario2.world1)
  /\ parsed_contents
       (search_and_parse
          (Scenario.env_of Scenario2.odd_search_response Scenario.pdf_ok)
          new_SearXNGClient "rocq" "en" Scenario.world0)
     = Ok [].
Proof. split; vm_compute; reflexivity. Qed.

(** C8.  An invalid field of one item can stop the batch.  With an item
    whose [url] field is an object with a field of its own named
    [toString] in front of a good item, [fetch_and_parse_results] throws
    before anything is fetched or logged; the good item alone is
    processed; and with the good item in front, it is fetched and then
    the batch is lost all the same. *)
Theorem C8_unconvertible_url_stops_the_batch :
  fetch_and_parse_results Scenario.env new_SearXNGClient
    (JArr [JObj 7; JObj 0]) Scenario2.world1
  = (Throw (JsError "Cannot convert object to primitive value"),
     Scenario2.world1)
  /\ parsed_contents
       (fetch_and_parse_results Scenario.env new_SearXNGClient
          (JArr [JObj 0]) Scenario2.world1)
     = Ok [Some (JStr "Hello world")]
  /\ exists w',
       fetch_and_parse_results Scenario.env new_SearXNGClient
         (JArr [JObj 0; JObj 7]) Scenario2.world1
       = (Throw (JsError "Cannot convert object to primitive value"), w')
       /\ http_gets (trace w') = ["https://a.test"].
Proof.
  split; [vm_compute; reflexivity|]. split; [vm_compute; reflexivity|].
  eexists. split; vm_compute; reflexivity.
Qed.


(** Witness of C1: a batch of six items, three of which give an output. *)
Lemma C1_witness :
  exists outs w',
    fetch_and_parse_results Scenario.env new_SearXNGClient
      (JArr [JObj 0; JObj 1; JObj 2; JNull; JObj 3; JObj 4]) Scenario.world0
    = (Ok outs, w')
    /\ length outs = 3
    /\ Forall (fun out =>
                 exists c,
                   field_of (heap w') out "parsed_content" = Some (JStr c)
                   /\ 0 < String.length c
                   /\ (N.of_nat (String.length c) <= 50000)%N) outs.
Proof.
  set (run := fetch_and_parse_results Scenario.env new_SearXNGClient
                (JArr [JObj 0; JObj 1; JObj 2; JNull; JObj 3; JObj 4])
                Scenario.world0).
  assert (Hrun : run = (Ok [JObj 6; JObj 7; JObj 8], snd run))
    by (vm_compute; reflexivity).
  exists [JObj 6; JObj 7; JObj 8], (snd run).
  split; [exact Hrun|]. split; [reflexivity|].
  exact (C1_parsed_content_nonempty_and_bounded Scenario.env
           new_SearXNGClient _ _ _ _ Hrun).
Defined.

(** Witness of C2, on the same batch. *)
Lemma C2_witness :
  exists outs w' kept,
    fetch_and_parse_results Scenario.env new_SearXNGClient
      (JArr [JObj 0; JObj 1; JObj 2; JNull; JObj 3; JObj 4]) Scenario.world0
    = (Ok outs, w')
    /\ length outs <= 6
    /\ sublist kept [JObj 0; JObj 1; JObj 2; JNull; JObj 3; JObj 4]
    /\ Forall2 (fun item out =>
                  is_Some (url_of (heap w') out)
                  /\ url_of (heap w') out = url_of (heap w') item) kept outs.
Proof.
  set (run := fetch_and_parse_results Scenario.env new_SearXNGClient
                (JArr [JObj 0; JObj 1; JObj 2; JNull; JObj 3; JObj 4])
                Scenario.world0).
  assert (Hrun : run = (Ok [JObj 6; JObj 7; JObj 8], snd run))
    by (vm_compute; reflexivity).
  destruct (C2_output_is_ordered_selection_of_input Scenario.env
              new_SearXNGClient _ _ _ _ Hrun)
    as (_ & Hlen & _ & kept & Hsub & Hall).
  exists [JObj 6; JObj 7; JObj 8], (snd run), kept.
  split; [exact Hrun|]. split; [exact Hlen|]. split; [exact Hsub|exact Hall].
Defined.


(** Witness of C10: the fourth item of the heap, which holds a stale
    text under [parsed_content], between a good item and an unreachable
    one.  The output made from it holds the text just extracted. *)
Lemma C10_witness :
  exists w',
    fetch_and_parse_results Scenario.env new_SearXNGClient
      (JArr [JObj 0; JObj 3; JObj 4]) Scenario.world0
    = (Ok [JObj 6; JObj 7], w')
    /\ field_of (heap w') (JObj 7) "parsed_content"
       = Some (JStr "Hello world")
    /\ field_of (heap w') (JObj 3) "parsed_content"
       = Some (JStr "stale text").
Proof.
  set (env := Scenario.env). set (self := new_SearXNGClient).
  set (before := fetch_and_parse_results env self (JArr [JObj 0])
                   Scenario.world0).
  set (w0 := snd before).
  set (fs := ({[ "url" := JStr "https://a.test";
                 "parsed_content" := JStr "stale text" ]} : obj)).
  set (fetched := _fetch_url_content env "https://a.test" w0).
  set (w1 := snd fetched).
  set (pc := mkParsed "https://a.test" "Hello world").
  set (parsed := _parse_content env self Scenario2.hello_response
                   "https://a.test" w1).
  set (w2 := snd parsed).
  assert (Hpre : before = (Ok [JObj 6], w0)) by (vm_compute; reflexivity).
  assert (Hl : heap w0 !! 3 = Some fs) by (vm_compute; reflexivity).
  assert (Hold : fs !! "parsed_content" = Some (JStr "stale text"))
    by (vm_compute; reflexivity).
  assert (Hurl : fs !! "url" = Some (JStr "https://a.test"))
    by (vm_compute; reflexivity).
  assert (Hfetch : fetched = (Ok (Some Scenario2.hello_response), w1))
    by (vm_compute; reflexivity).
  assert (Hparse : parsed = (Ok (Some pc), w2)) by (vm_compute; reflexivity).
  destruct (C10_existing_parsed_content_is_overwritten env self
              [JObj 0] [JObj 4] [JObj 6] 3 fs (JStr "stale text")
              "https://a.test" Scenario2.hello_response pc
              Scenario.world0 w0 w1 w2
              Hpre Hl Hold Hurl eq_refl Hfetch Hparse eq_refl)
    as (Hrun & Hfields).
  set (w3 := mkWorld
               (heap w0 ++ [<["parsed_content" := JStr (content pc)]> fs])
               (files w2) (trace w2)) in *.
  set (after := fetch_and_parse_results env self (JArr [JObj 4]) w3) in *.
  assert (Hrest : after = (Ok [], snd after)) by (vm_compute; reflexivity).
  destruct (Hfields [] (snd after) Hrest) as (Hnew & Hkept & _).
  exists (snd after). change ([JObj 0; JObj 3; JObj 4])
    with ([JObj 0] ++ JObj 3 :: [JObj 4]).
  rewrite Hrun. unfold mbind, M_bind. fold after. rewrite Hrest.
  split; [reflexivity|]. split; [exact Hnew|exact Hkept].
Defined.

(** ** The scenarios of the specification *)

Example default_max_content_length :
  max_content_length new_SearXNGClient = 50000%N.
Proof. reflexivity. Qed.

Example scenario_1_html_page :
  parsed_contents
    (fetch_and_parse_results Scenario.env new_SearXNGClient (JArr [JObj 0])
       Scenario.world0)
  = Ok [Some (JStr "Hello world")].
Proof. vm_compute. reflexivity. Qed.

Example scenario_2_pdf_document :
  parsed_contents
    (fetch_and_parse_results Scenario.env new_SearXNGClient (JArr [JObj 1])
       Scenario.world0)
  = Ok [Some (JStr "Document text")].
Proof. vm_compute. reflexivity. Qed.

Example scenario_3_invalid_url_skipped :
  parsed_contents
    (fetch_and_parse_results Scenario.env new_SearXNGClient
       (JArr [JObj 2; JObj 0]) Scenario.world0)
  = Ok [Some (JStr "Hello world")].
Proof. vm_compute. reflexivity. Qed.

Example scenario_4_failed_fetch_skipped :
  parsed_contents
    (fetch_and_parse_results Scenario.env new_SearXNGClient
       (JArr [JObj 4; JObj 0]) Scenario.world0)
  = Ok [Some (JStr "Hello world")].
Proof. vm_compute. reflexivity. Qed.

Example scenario_5_no_text_skipped :
  parsed_contents
    (fetch_and_parse_results Scenario.env new_SearXNGClient
       (JArr [JObj 5]) Scenario.world0)
  = Ok [].
Proof. vm_compute. reflexivity. Qed.

Example scenario_6_not_a_list :
  parsed_contents
    (fetch_and_parse_results Scenario.env new_SearXNGClient (JObj 0)
       Scenario.world0)
  = Ok []
  /\ parsed_contents
       (fetch_and_parse_results Scenario.env new_SearXNGClient JUndefined
          Scenario.world0)
     = Ok [].
Proof. split; vm_compute; reflexivity. Qed.

Example search_and_parse_endpoint_down :
  parsed_contents
    (search_and_parse Scenario.env new_SearXNGClient "rocq" "en"
       Scenario.world0)
  = Ok [].
Proof. vm_compute. reflexivity. Qed.

Example search_and_parse_endpoint_up :
  parsed_contents
    (search_and_parse
       (Scenario.env_of Scenario.search_response Scenario.pdf_ok)
       new_SearXNGClient "rocq" "en" Scenario.world0)
  = Ok [Some (JStr "Hello world"); Some (JStr "Document text")].
Proof. vm_compute. reflexivity. Qed.

(** * Further properties of the methods *)

(** ** Strings *)

Lemma substring_0_all (n : nat) (s : string) :
  String.length s <= n -> String.substring 0 n s = s.
Proof.
  revert n; induction s as [|c s IH]; intros [|n] Hlen; simpl in *;
    try reflexivity; try lia.
  rewrite IH by lia. reflexivity.
Qed.

Lemma substring_0_prefix (n : nat) (s : string) :
  String.prefix (String.substring 0 n s) s = true.
Proof.
  revert n; induction s as [|c s IH]; intros [|n]; simpl; try reflexivity.
  rewrite IH. destruct (ascii_dec c c); [reflexivity|congruence].
Qed.

Lemma slice0_short (n : N) (s : string) :
  (N.of_nat (String.length s) <= n)%N -> JsString.slice0 n s = s.
Proof. intros Hlen. apply substring_0_all. lia. Qed.

Lemma slice0_prefix (n : N) (s : string) :
  String.prefix (JsString.slice0 n s) s = true.
Proof. apply substring_0_prefix. Qed.

Lemma N_zero_leb (n : N) : (0 <=? n)%N = true.
Proof. apply N.leb_le. lia. Qed.

Lemma single_spaced_collapse_from (s : string) :
  forall b, single_spaced b (JsString.collapse_from b s) = true.
Proof.
  induction s as [|c s IH]; intros b; simpl; [reflexivity|].
  destruct (JsString.is_ws c) eqn:Hc.
  - destruct b; [apply IH|]. simpl. apply IH.
  - simpl. rewrite Hc. apply IH.
Qed.

Lemma single_spaced_trimStart (s : string) :
  forall b b', single_spaced b s = true ->
               single_spaced b' (JsString.trimStart s) = true.
Proof.
  induction s as [|c s IH]; intros b b' H; simpl in *; [reflexivity|].
  destruct (JsString.is_ws c) eqn:Hc.
  - apply andb_prop in H as [_ H]. eapply IH. exact H.
  - simpl. rewrite Hc. exact H.
Qed.

Lemma single_spaced_trimEnd (s : string) :
  forall b, single_spaced b s = true ->
            single_spaced b (JsString.trimEnd s) = true.
Proof.
  induction s as [|c s IH]; intros b H; simpl in *; [reflexivity|].
  destruct (JsString.is_ws c) eqn:Hc.
  - apply andb_prop in H as [H1 H2]. specialize (IH true H2).
    destruct (JsString.trimEnd s) as [|c' t]; [reflexivity|].
    change (single_spaced b (String c (String c' t)) = true).
    cbn [single_spaced] in *. rewrite Hc, H1. exact IH.
  - specialize (IH false H).
    destruct (JsString.trimEnd s) as [|c' t].
    + simpl. rewrite Hc. reflexivity.
    + change (single_spaced b (String c (String c' t)) = true).
      cbn [single_spaced] in *. rewrite Hc. exact IH.
Qed.

Lemma starts_ws_trimStart (s : string) :
  starts_ws (JsString.trimStart s) = false.
Proof.
  induction s as [|c s IH]; simpl; [reflexivity|].
  destruct (JsString.is_ws c) eqn:Hc; [exact IH|]. simpl. exact Hc.
Qed.

Lemma starts_ws_trimEnd (s : string) :
  starts_ws s = false -> starts_ws (JsString.trimEnd s) = false.
Proof.
  destruct s as [|c s]; simpl; [reflexivity|]. intros Hc.
  destruct (JsString.trimEnd s); [rewrite Hc|]; simpl; auto.
Qed.

Lemma ends_ws_trimEnd (s : string) : ends_ws (JsString.trimEnd s) = false.
Proof.
  induction s as [|c s IH]; simpl; [reflexivity|].
  destruct (JsString.trimEnd s) as [|c' t].
  - destruct (JsString.is_ws c) eqn:Hc; simpl; auto.
  - exact IH.
Qed.

Lemma ws_normalized_trim_collapse (text : string) :
  ws_normalized (JsString.trim (JsString.collapse_ws text)) = true.
Proof.
  unfold ws_normalized, JsString.trim, JsString.collapse_ws.
  rewrite starts_ws_trimEnd by apply starts_ws_trimStart.
  rewrite ends_ws_trimEnd. simpl.
  apply single_spaced_trimEnd.
  eapply single_spaced_trimStart. apply single_spaced_collapse_from.
Qed.

Section MoreProperties.

Variable env : Env.
Variable self : SearXNGClient.

Ltac run :=
  cbv beta iota zeta delta
    [mbind M_bind mret M_ret try_catch throw logger emit get_world alloc
     set_heap race_timer template];
  cbn [heap files trace fst snd].

Ltac url_text :=
  cbv beta iota zeta delta
    [from_option id mbind M_bind mret M_ret logger emit template];
  cbn [heap files trace];
  match goal with
  | |- context [to_String ?h ?v] => destruct (to_String h v) as [msg|e]
  end.

Ltac case_oracles :=
  repeat (run; simpl;
    match goal with
    | |- context [match ?x with _ => _ end] =>
        lazymatch x with
        | context [match _ with _ => _ end] => fail
        | _ => destruct x eqn:?
        end
    end); run; simpl.

(** ** The markup branch of [_parse_content] *)

(** The executor of [parsingPromise] always settles the promise before it
    returns. *)
Lemma parsing_executor_settles (html url : string) (w : World) :
  exists r w',
    parsing_executor env self html url w = (Ok (Some r), w').
Proof.
  unfold parsing_executor, Readability_parse, cheerio_text.
  case_oracles; eauto.
Qed.

(** X1.  The parsing timeout never decides the result of
    [_parse_content]: with any other value of [parsingTimeout], zero
    included, the method returns the same result.  The executor of
    [parsingPromise] runs inside the constructor, so the promise is
    settled before the race with the timer starts. *)
Theorem parse_content_ignores_parsingTimeout
    (seconds : N) (response : AxiosResponse (list Byte.byte))
    (url : string) (w : World) :
  fst (_parse_content env (with_parsingTimeout seconds self) response url w)
  = fst (_parse_content env self response url w).
Proof.
  unfold _parse_content.
  destruct (JsString.includes "application/pdf" _); [reflexivity|].
  destruct (negb (JsString.nonempty _)); [reflexivity|].
  run.
  change (parsing_executor env (with_parsingTimeout seconds self))
    with (parsing_executor env self).
  match goal with
  | |- context [parsing_executor env self ?h ?u ?w0] =>
      destruct (parsing_executor_settles h u w0) as (r & w' & ->)
  end.
  simpl.
  assert (H1 : (0 <=? seconds * 1000)%N = true) by (apply N.leb_le; lia).
  assert (H2 : (0 <=? parsingTimeout self * 1000)%N = true)
    by (apply N.leb_le; lia).
  cbn [parsingTimeout with_parsingTimeout]. rewrite H1, H2.
  destruct r; reflexivity.
Qed.

(** X2.  In the markup branch, when Tier 1 yields a non-empty text, the
    result is that text cut to its first [max_content_length] code units
    under the URL that was passed in, and Cheerio is not run; a text no
    longer than [max_content_length] is returned unchanged. *)
Theorem parse_content_tier1_text
    (response : AxiosResponse (list Byte.byte)) (url text : string)
    (w : World) :
  let html := Buffer_toString env (data response) in
  is_pdf response = false ->
  JsString.nonempty html = true ->
  readability env html url = ArticleText (Some text) ->
  JsString.nonempty text = true ->
  exists w' new,
    _parse_content env self response url w
    = (Ok (Some (mkParsed url
                   (JsString.slice0 (max_content_length self) text))), w')
    /\ trace w' = trace w ++ new
    /\ tier2_calls new = []
    /\ String.prefix (JsString.slice0 (max_content_length self) text) text
       = true
    /\ ((N.of_nat (String.length text) <= max_content_length self)%N ->
        JsString.slice0 (max_content_length self) text = text).
Proof.
  intros html Hpdf Hhtml Hread Htext.
  unfold _parse_content. unfold is_pdf, header_content_type in Hpdf.
  rewrite Hpdf. fold html. rewrite Hhtml. simpl.
  unfold parsing_executor, Readability_parse. run. rewrite Hread.
  destruct text as [|c text]; [discriminate|]. run. simpl.
  rewrite N_zero_leb.
  do 2 eexists. split; [reflexivity|].
  split; [cbn [trace]; rewrite <- !app_assoc; reflexivity|].
  split; [reflexivity|].
  split; [exact (slice0_prefix _ (String c text))
         |exact (slice0_short _ (String c text))].
Qed.

(** X3.  In the markup branch, when Tier 1 yields no text and Cheerio
    yields the body text [body], the text kept is [body] with every run
    of white space collapsed to one space and both ends trimmed: it has
    no white space at either end and no white space but single spaces
    inside.  The result is null when that text is empty and otherwise
    its first [max_content_length] code units. *)
Theorem parse_content_tier2_text
    (response : AxiosResponse (list Byte.byte)) (url body : string)
    (w : World) :
  let html := Buffer_toString env (data response) in
  let text := JsString.trim (JsString.collapse_ws body) in
  is_pdf response = false ->
  JsString.nonempty html = true ->
  tier1_empty (readability env html url) = true ->
  cheerio_body_text env html = BodyText body ->
  exists w',
    _parse_content env self response url w
    = (Ok (if JsString.nonempty text
           then Some (mkParsed url
                        (JsString.slice0 (max_content_length self) text))
           else None), w')
    /\ ws_normalized text = true.
Proof.
  intros html text Hpdf Hhtml Hread Hbody.
  assert (Hnorm : ws_normalized text = true)
    by apply ws_normalized_trim_collapse.
  unfold _parse_content. unfold is_pdf, header_content_type in Hpdf.
  rewrite Hpdf. fold html. rewrite Hhtml. simpl.
  unfold parsing_executor, Readability_parse, cheerio_text. run.
  destruct (readability env html url) as [[[|c t]|]|m];
    try discriminate Hread.
  all: run; rewrite Hbody; run; fold text.
  all: destruct text as [|c text']; run; simpl; rewrite ?N_zero_leb.
  all: eexists; split; [reflexivity|exact Hnorm].
Qed.

(** ** The PDF extractor *)

(** The success path of [_extract_text_from_pdf]. *)
Lemma extract_text_from_pdf_success_spec
    (url : string) (buffer : list Byte.byte) (w : World)
    (elapsed : N) (stdout stderr : string) :
  let path := tempFilePath_at (date_now env w) in
  let command := "pdf2txt.py " +:+ JsString.dq +:+ path +:+ JsString.dq in
  fs_write_error env (write_world env w) path = None ->
  exec_outcome env (exec_world env buffer w) command
  = ExecExit elapsed 0 stdout stderr ->
  (elapsed <= pdfExtractionTimeout self * 1000)%N ->
  fs_unlink_error env (unlink_world env buffer stderr w) path = None ->
  exists w',
    _extract_text_from_pdf env self url buffer w
    = (Ok (Some (JsString.trim stdout)), w')
    /\ files w' = delete path (files w)
    /\ heap w' = heap w.
Proof.
  intros path command Hwrite Hexec Htime Hunlink.
  unfold _extract_text_from_pdf, fs_writeFile, fs_unlink, execAsync. run.
  fold path. unfold write_world in Hwrite. fold path in Hwrite.
  rewrite Hwrite. run. rewrite <- !app_assoc. simpl.
  fold command. unfold exec_world in Hexec. fold path command in Hexec.
  rewrite Hexec. simpl.
  apply N.leb_le in Htime. rewrite Htime. run.
  unfold unlink_world in Hunlink. fold path command in Hunlink.
  destruct (JsString.nonempty stderr); run; simpl in *;
    rewrite <- ?app_assoc; simpl;
    rewrite lookup_insert_eq, Hunlink; run;
    (eexists; split; [reflexivity|]; split; [apply delete_insert_eq|reflexivity]).
Qed.

(** X4.  When the temporary file is written, pdf2txt.py exits with code
    0 within the timeout and the file is removed, [_extract_text_from_pdf]
    returns the standard output of pdf2txt.py, trimmed; no file is left
    under the temporary path, whatever was there before, and every other
    file and the heap are as they were. *)
Theorem extract_text_from_pdf_success
    (url : string) (buffer : list Byte.byte) (w : World)
    (elapsed : N) (stdout stderr : string) :
  let path := tempFilePath_at (date_now env w) in
  let command := "pdf2txt.py " +:+ JsString.dq +:+ path +:+ JsString.dq in
  fs_write_error env (write_world env w) path = None ->
  exec_outcome env (exec_world env buffer w) command
  = ExecExit elapsed 0 stdout stderr ->
  (elapsed <= pdfExtractionTimeout self * 1000)%N ->
  fs_unlink_error env (unlink_world env buffer stderr w) path = None ->
  exists w',
    _extract_text_from_pdf env self url buffer w
    = (Ok (Some (JsString.trim stdout)), w')
    /\ files w' = delete path (files w)
    /\ heap w' = heap w.
Proof. exact (extract_text_from_pdf_success_spec url buffer w elapsed stdout stderr). Qed.

(** X5.  A failure of the cleanup loses the text: when pdf2txt.py
    succeeds within the timeout and the removal of the temporary file is
    rejected, [_extract_text_from_pdf] returns null, and the file is
    still there. *)
Theorem extract_text_from_pdf_unlink_failure
    (url : string) (buffer : list Byte.byte) (w : World)
    (elapsed : N) (stdout stderr message : string) :
  let path := tempFilePath_at (date_now env w) in
  let command := "pdf2txt.py " +:+ JsString.dq +:+ path +:+ JsString.dq in
  fs_write_error env (write_world env w) path = None ->
  exec_outcome env (exec_world env buffer w) command
  = ExecExit elapsed 0 stdout stderr ->
  (elapsed <= pdfExtractionTimeout self * 1000)%N ->
  fs_unlink_error env (unlink_world env buffer stderr w) path = Some message ->
  exists w',
    _extract_text_from_pdf env self url buffer w = (Ok None, w')
    /\ files w' !! path = Some buffer.
Proof.
  intros path command Hwrite Hexec Htime Hunlink.
  unfold _extract_text_from_pdf, fs_writeFile, fs_unlink, execAsync. run.
  fold path. unfold write_world in Hwrite. fold path in Hwrite.
  rewrite Hwrite. run. rewrite <- !app_assoc. simpl.
  fold command. unfold exec_world in Hexec. fold path command in Hexec.
  rewrite Hexec. simpl.
  apply N.leb_le in Htime. rewrite Htime. run.
  unfold unlink_world in Hunlink. fold path command in Hunlink.
  destruct (JsString.nonempty stderr); run; simpl in *;
    rewrite <- ?app_assoc; simpl;
    rewrite lookup_insert_eq, Hunlink; run;
    (eexists; split; [reflexivity|]; apply lookup_insert_eq).
Qed.

(** X6.  [_extract_text_from_pdf] returns a text only on one path: the
    temporary file was written, pdf2txt.py exited with code 0 within the
    timeout, and the file was removed.  The text is then the trimmed
    standard output, and no file is left under the temporary path. *)
Theorem extract_text_from_pdf_text_only_on_success
    (url : string) (buffer : list Byte.byte) (w w' : World) (text : string) :
  let path := tempFilePath_at (date_now env w) in
  let command := "pdf2txt.py " +:+ JsString.dq +:+ path +:+ JsString.dq in
  _extract_text_from_pdf env self url buffer w = (Ok (Some text), w') ->
  exists elapsed stdout stderr,
    fs_write_error env (write_world env w) path = None
    /\ exec_outcome env (exec_world env buffer w) command
       = ExecExit elapsed 0 stdout stderr
    /\ (elapsed <= pdfExtractionTimeout self * 1000)%N
    /\ fs_unlink_error env (unlink_world env buffer stderr w) path = None
    /\ text = JsString.trim stdout
    /\ files w' !! path = None.
Proof.
  intros path command. subst path command.
  unfold _extract_text_from_pdf, fs_writeFile, fs_unlink, execAsync. run.
  destruct (fs_write_error env _ _) as [m|] eqn:Hwrite; run;
    [intros H; discriminate H|].
  rewrite <- !app_assoc. simpl.
  destruct (exec_outcome env _ _) as [t code out err|t m|] eqn:Hexec;
    simpl; run.
  2: destruct (t <=? _)%N; run; intros H; discriminate H.
  2: intros H; discriminate H.
  destruct (t <=? _)%N eqn:Htime; run; [|intros H; discriminate H].
  destruct (code =? 0)%Z eqn:Hcode; run; [|intros H; discriminate H].
  apply Z.eqb_eq in Hcode. subst code. apply N.leb_le in Htime.
  destruct (JsString.nonempty err) eqn:Herr; run; simpl;
    rewrite <- ?app_assoc; simpl; rewrite lookup_insert_eq;
    (destruct (fs_unlink_error env _ _) as [m|] eqn:Hunlink; run;
     [intros H; discriminate H|]);
    intros [= <- <-]; exists t, out, err; cbn [files];
    (split; [first [reflexivity|exact Hwrite]|]);
    (split; [first [reflexivity|exact Hexec]|]);
    (split; [exact Htime|]);
    (split; [first [reflexivity
                   |unfold unlink_world; rewrite Herr; simpl; exact Hunlink]|]);
    (split; [reflexivity|apply lookup_delete_eq]).
Qed.

(** X7.  In the PDF branch of [_parse_content], after a successful
    extraction, the result is the trimmed output of pdf2txt.py cut to its
    first [max_content_length] code units, under the URL that was passed
    in; an output made of white space only gives null. *)
Theorem parse_content_pdf_text
    (response : AxiosResponse (list Byte.byte)) (url : string) (w : World)
    (elapsed : N) (stdout stderr : string) :
  let w1 := pdf_world url w in
  let path := tempFilePath_at (date_now env w1) in
  let command := "pdf2txt.py " +:+ JsString.dq +:+ path +:+ JsString.dq in
  let text := JsString.trim stdout in
  is_pdf response = true ->
  fs_write_error env (write_world env w1) path = None ->
  exec_outcome env (exec_world env (data response) w1) command
  = ExecExit elapsed 0 stdout stderr ->
  (elapsed <= pdfExtractionTimeout self * 1000)%N ->
  fs_unlink_error env (unlink_world env (data response) stderr w1) path
  = None ->
  exists w',
    _parse_content env self response url w
    = (Ok (if JsString.nonempty text
           then Some (mkParsed url
                        (JsString.slice0 (max_content_length self) text))
           else None), w')
    /\ files w' = delete path (files w).
Proof.
  intros w1 path command text Hpdf Hwrite Hexec Htime Hunlink.
  destruct (extract_text_from_pdf_success_spec url (data response) w1
              elapsed stdout stderr Hwrite Hexec Htime Hunlink)
    as (w2 & Hrun & Hfiles & _).
  unfold _parse_content. unfold is_pdf, header_content_type in Hpdf.
  rewrite Hpdf. run. fold (pdf_world url w). fold w1. rewrite Hrun.
  fold text. fold path in Hfiles.
  destruct text as [|c t]; run; simpl;
    (eexists; split; [reflexivity|exact Hfiles]).
Qed.

(** X19.  The timer of the markup branch is never cleared.  Whenever
    [_parse_content] gets a document that is not a PDF and is not empty,
    it returns without throwing and leaves a timer behind whose callback
    writes the warning of a parsing timeout [parsingTimeout] seconds
    later, whatever the parse gave. *)
Theorem parse_content_leaves_timeout_warning
    (response : AxiosResponse (list Byte.byte)) (url : string) (w : World) :
  is_pdf response = false ->
  JsString.nonempty (Buffer_toString env (data response)) = true ->
  exists r w' new,
    _parse_content env self response url w = (Ok r, w')
    /\ trace w' = trace w ++ new
    /\ EvLateLog (parsingTimeout self * 1000) Warn
         ("SearXNGClient: Parsing timed out for URL: " +:+ url) ∈ new.
Proof.
  intros Hpdf Hne. unfold _parse_content.
  unfold is_pdf, header_content_type in Hpdf. rewrite Hpdf, Hne.
  unfold parsing_executor, Readability_parse, cheerio_text.
  case_oracles.
  all: try match goal with
           | H : (0 <=? _)%N = false |- _ =>
               rewrite N_zero_leb in H; discriminate H
           end.
  all: do 3 eexists; split; [reflexivity|].
  all: split; [cbn [trace]; rewrite <- ?app_assoc; reflexivity|].
  all: simpl; repeat first [left|right].
Qed.

(** ** The file system *)

Lemma extract_text_from_pdf_other_files (url : string)
    (buffer : list Byte.byte) (w : World) :
  exists r w',
    _extract_text_from_pdf env self url buffer w = (Ok r, w')
    /\ forall p, p <> tempFilePath_at (date_now env w) ->
                 files w' !! p = files w !! p.
Proof.
  unfold _extract_text_from_pdf, fs_writeFile, fs_unlink, execAsync.
  case_oracles.
  all: do 2 eexists; split; [reflexivity|]; intros p Hp; cbn [files].
  all: rewrite ?lookup_delete_ne, ?lookup_insert_ne by congruence.
  all: reflexivity.
Qed.

Lemma parse_content_other_files
    (response : AxiosResponse (list Byte.byte)) (url : string) (w : World) :
  exists r w',
    _parse_content env self response url w = (Ok r, w')
    /\ forall p, ~ temp_shaped p -> files w' !! p = files w !! p.
Proof.
  unfold _parse_content.
  destruct (JsString.includes "application/pdf" _).
  - run.
    match goal with
    | |- context [_extract_text_from_pdf env self ?u ?b ?w0] =>
        destruct (extract_text_from_pdf_other_files u b w0)
          as (r & w1 & Hrun & Hfiles)
    end.
    rewrite Hrun.
    assert (Hother : forall p, ~ temp_shaped p -> files w1 !! p = files w !! p).
    { intros p Hp. rewrite Hfiles; [reflexivity|].
      intros ->. apply Hp. eexists. reflexivity. }
    destruct r as [[|c t]|]; run; do 2 eexists; (split; [reflexivity|]);
      exact Hother.
  - unfold parsing_executor, Readability_parse, cheerio_text.
    case_oracles.
    all: do 2 eexists; split; [reflexivity|]; intros p Hp; reflexivity.
Qed.

Lemma loop_body_other_files (item : value) (acc : list value) (w : World) :
  exists r w',
    loop_body env self item acc w = (r, w')
    /\ forall p, ~ temp_shaped p -> files w' !! p = files w !! p.
Proof.
  unfold loop_body, loop_body_with, get_prop.
  destruct item as [| |[|]|z|s|items|l]; simpl; rewrite ?orb_true_r; run;
    simpl; eauto.
  destruct (fields_at (heap w) l !! "url") as [[| |b|z|u|items|l0]|].
  1-4,8: simpl; run; simpl; eauto.
  2,3: url_text; eauto.
  simpl.
  destruct (_is_valid_url env u); simpl; run; eauto.
  destruct (fetch_url_content_spec env u w)
    as (r & w1 & Hfetch & _ & Hfiles1 & _).
  rewrite Hfetch.
  destruct r as [response|]; run.
  2: { do 2 eexists. split; [reflexivity|]. intros p _. rewrite Hfiles1.
       reflexivity. }
  destruct (parse_content_other_files response u w1)
    as (r & w2 & Hparse & Hfiles2).
  rewrite Hparse.
  assert (Hother : forall p, ~ temp_shaped p -> files w2 !! p = files w !! p).
  { intros p Hp. rewrite Hfiles2, Hfiles1 by exact Hp. reflexivity. }
  destruct r as [pc|]; run; eauto.
  destruct (JsString.nonempty (content pc)); run; eauto.
Qed.

(** X8.  [fetch_and_parse_results] leaves the file system as it found it,
    except under the paths of the form /tmp/temp_<number>.pdf that the
    PDF extractor uses for its temporary file; this holds also for a run
    that ends in an exception. *)
Theorem fetch_and_parse_results_touches_only_temp_files
    (results : value) (w : World) :
  exists r w',
    fetch_and_parse_results env self results w = (r, w')
    /\ forall p, ~ temp_shaped p -> files w' !! p = files w !! p.
Proof.
  unfold fetch_and_parse_results, fetch_and_parse_results_with.
  destruct results as [| |b|z|s|items|l]; simpl; rewrite ?orb_true_r;
    try (run; do 2 eexists; split; [reflexivity|]; intros p _; reflexivity).
  generalize (@nil value) as acc. revert w.
  induction items as [|x rest IH]; intros w acc.
  - exists (Ok acc), w. split; [reflexivity|]. reflexivity.
  - destruct (loop_body_other_files x acc w) as (r1 & w1 & Hbody & Hf1).
    simpl. unfold mbind, M_bind.
    unfold loop_body in Hbody. rewrite Hbody.
    destruct r1 as [acc'|e].
    + destruct (IH w1 acc') as (r & w' & Hrest & Hf2).
      exists r, w'. split; [exact Hrest|].
      intros p Hp. rewrite Hf2, Hf1 by exact Hp. reflexivity.
    + exists (Throw e), w1. split; [reflexivity|exact Hf1].
Qed.

Lemma execs_app (l1 l2 : list event) :
  execs (l1 ++ l2) = execs l1 ++ execs l2.
Proof. apply omap_app. Qed.

Lemma writes_app (l1 l2 : list event) :
  writes (l1 ++ l2) = writes l1 ++ writes l2.
Proof. apply omap_app. Qed.

Lemma parse_content_markup_quiet
    (response : AxiosResponse (list Byte.byte)) (url : string) (w : World) :
  is_pdf response = false ->
  exists r w' new,
    _parse_content env self response url w = (Ok r, w')
    /\ trace w' = trace w ++ new
    /\ files w' = files w
    /\ execs new = [] /\ writes new = [].
Proof.
  intros Hpdf. unfold _parse_content.
  unfold is_pdf, header_content_type in Hpdf. rewrite Hpdf.
  unfold parsing_executor, Readability_parse, cheerio_text.
  case_oracles.
  all: do 3 eexists; split; [reflexivity|].
  all: split; [cbn [trace]; rewrite <- ?app_assoc; reflexivity|].
  all: repeat split; reflexivity.
Qed.

Lemma loop_body_markup_quiet (item : value) (acc : list value) (w : World) :
  never_pdf env ->
  exists r w' new,
    loop_body env self item acc w = (r, w')
    /\ trace w' = trace w ++ new
    /\ files w' = files w
    /\ execs new = [] /\ writes new = [].
Proof.
  intros Hnever.
  assert (Hskip : forall (a : list value) (e : event),
            execs [e] = [] -> writes [e] = [] ->
            exists r w' new,
              (Ok a, mkWorld (heap w) (files w) (trace w ++ [e]))
              = (r, w')
              /\ trace w' = trace w ++ new
              /\ files w' = files w
              /\ execs new = [] /\ writes new = []).
  { intros a e He Hw.
    exists (Ok a), (mkWorld (heap w) (files w) (trace w ++ [e])), [e].
    repeat split; first [assumption|reflexivity]. }
  assert (Hthrow : forall e : exn,
            exists r w' new,
              (@Throw (list value) e, w) = (r, w')
              /\ trace w' = trace w ++ new
              /\ files w' = files w
              /\ execs new = [] /\ writes new = []).
  { intros e. exists (Throw e), w, []. rewrite app_nil_r.
    repeat split; reflexivity. }
  unfold loop_body, loop_body_with, get_prop.
  destruct item as [| |[|]|z|s|items|l]; simpl; rewrite ?orb_true_r; run;
    simpl; try (apply Hskip; reflexivity).
  destruct (fields_at (heap w) l !! "url") as [[| |b|z|u|items|l0]|].
  1-4,8: simpl; run; simpl; apply Hskip; reflexivity.
  2,3: url_text; [apply Hskip; reflexivity|apply Hthrow].
  simpl.
  destruct (_is_valid_url env u); simpl; run; try (apply Hskip; reflexivity).
  clear Hskip Hthrow.
  pose proof (fetch_url_content_spec env u w)
    as (r & w1 & Hfetch & _ & Hfiles1 & _ & Hr).
  assert (Hquiet1 : exists new1, trace w1 = trace w ++ new1
                                 /\ execs new1 = [] /\ writes new1 = []).
  { revert Hfetch. unfold _fetch_url_content, axios_get_bytes. run.
    rewrite <- !app_assoc. simpl.
    destruct (net_bytes env _ u) as [st hs d|m|m]; run.
    1: destruct (validateStatus st); run.
    all: intros [= _ <-]; cbn [trace]; rewrite <- ?app_assoc;
      eexists; split; [reflexivity|]; split; reflexivity. }
  destruct Hquiet1 as (new1 & Htr1 & He1 & Hw1).
  rewrite Hfetch.
  destruct r as [response|]; run.
  2: { exists (Ok acc), w1, new1.
       repeat split; first [assumption|reflexivity]. }
  assert (Hpdf : is_pdf response = false).
  { destruct (net_bytes env (request_world u w) u) as [st hs d|m|m] eqn:Hnet;
      try discriminate Hr.
    destruct (validateStatus st); [|discriminate Hr].
    injection Hr as ->. eapply Hnever. exact Hnet. }
  destruct (parse_content_markup_quiet response u w1 Hpdf)
    as (r & w2 & new2 & Hparse & Htr2 & Hfiles2 & He2 & Hw2).
  rewrite Hparse.
  assert (Htr : trace w2 = trace w ++ (new1 ++ new2))
    by (rewrite Htr2, Htr1, app_assoc; reflexivity).
  assert (He : execs (new1 ++ new2) = [])
    by (rewrite execs_app, He1, He2; reflexivity).
  assert (Hw : writes (new1 ++ new2) = [])
    by (rewrite writes_app, Hw1, Hw2; reflexivity).
  assert (Hfiles : files w2 = files w) by congruence.
  destruct r as [pc|]; run.
  2: { exists (Ok acc), w2, (new1 ++ new2).
       repeat split; first [assumption|reflexivity]. }
  destruct (JsString.nonempty (content pc)); run.
  2: { exists (Ok acc), w2, (new1 ++ new2).
       repeat split; first [assumption|reflexivity]. }
  eexists. eexists. exists (new1 ++ new2). split; [reflexivity|].
  cbn [trace files]. repeat split; first [assumption|reflexivity].
Qed.

(** X15.  When no document is served with a content type containing
    application/pdf, [fetch_and_parse_results] starts no subprocess and
    writes no file: the file system is left exactly as it was, also by a
    run that ends in an exception. *)
Theorem fetch_and_parse_results_markup_only (results : value) (w : World) :
  never_pdf env ->
  exists r w' new,
    fetch_and_parse_results env self results w = (r, w')
    /\ trace w' = trace w ++ new
    /\ files w' = files w
    /\ execs new = [] /\ writes new = [].
Proof.
  intros Hnever.
  unfold fetch_and_parse_results, fetch_and_parse_results_with.
  destruct results as [| |b|z|s|items|l]; simpl; rewrite ?orb_true_r;
    try (run; do 3 eexists; split; [reflexivity|]; cbn [trace files];
         repeat split; reflexivity).
  generalize (@nil value) as acc. revert w.
  induction items as [|x rest IH]; intros w acc.
  - exists (Ok acc), w, []. rewrite app_nil_r. repeat split; reflexivity.
  - destruct (loop_body_markup_quiet x acc w Hnever)
      as (r1 & w1 & new1 & Hbody & Htr1 & Hf1 & He1 & Hw1).
    simpl. unfold mbind, M_bind.
    unfold loop_body in Hbody. rewrite Hbody.
    destruct r1 as [acc'|e].
    + destruct (IH w1 acc')
        as (r & w' & new2 & Hrest & Htr2 & Hf2 & He2 & Hw2).
      exists r, w', (new1 ++ new2). split; [exact Hrest|].
      split; [rewrite Htr2, Htr1, app_assoc; reflexivity|].
      split; [congruence|].
      rewrite execs_app, writes_app, He1, He2, Hw1, Hw2. auto.
    + exists (Throw e), w1, new1. repeat split; assumption.
Qed.

(** ** [search] and [search_and_parse] *)

(** [search] in full: its result, its requests and what it leaves. *)
Lemma search_spec (query language : string) (w : World) :
  let answer :=
    net_json env (search_request_world self query w) (search_url self)
      (search_params self query language) in
  exists v w' new,
    search env self query language w = (Ok v, w')
    /\ trace w' = trace w ++ new
    /\ http_gets new = [search_url self]
    /\ files w' = files w
    /\ (forall st hs d,
          answer = NetResponse st hs d -> search_succeeds answer = true ->
          (v, heap w') = materialize d (heap w))
    /\ (search_succeeds answer = false ->
        exists l, v = JObj l /\ l = length (heap w') - 1
                  /\ heap w' !! l = Some {[ "results" := JArr [] ]}).
Proof.
  intros answer. subst answer.
  unfold search, axios_get_json, search_request_world, search_url,
    search_params, search_succeeds.
  run. rewrite <- !app_assoc. simpl.
  destruct (net_json env _ _ _) as [st hs d|m|m]; run.
  - destruct (materialize d (heap w)) as [v h'] eqn:Hmat. run.
    unfold validateStatus.
    destruct ((200 <=? st)%Z && (st <? 300)%Z); run.
    + do 3 eexists. split; [reflexivity|].
      split; [cbn [trace]; rewrite <- !app_assoc; reflexivity|].
      split; [reflexivity|]. split; [reflexivity|].
      split; [|discriminate].
      intros st' hs' d' [= <- <- <-] _. rewrite Hmat. reflexivity.
    + do 3 eexists. split; [reflexivity|].
      split; [cbn [trace]; rewrite <- !app_assoc; reflexivity|].
      split; [reflexivity|]. split; [reflexivity|].
      split; [discriminate|].
      intros _. eexists. split; [reflexivity|]. cbn [heap].
      rewrite length_app. simpl.
      split; [lia|]. rewrite lookup_app_r by lia.
      rewrite Nat.sub_diag. reflexivity.
  - do 3 eexists. split; [reflexivity|].
    split; [cbn [trace]; rewrite <- !app_assoc; reflexivity|].
    split; [reflexivity|]. split; [reflexivity|].
    split; [discriminate|].
    intros _. eexists. split; [reflexivity|]. cbn [heap].
    rewrite length_app. simpl.
    split; [lia|]. rewrite lookup_app_r by lia.
    rewrite Nat.sub_diag. reflexivity.
  - do 3 eexists. split; [reflexivity|].
    split; [cbn [trace]; rewrite <- !app_assoc; reflexivity|].
    split; [reflexivity|]. split; [reflexivity|].
    split; [discriminate|].
    intros _. eexists. split; [reflexivity|]. cbn [heap].
    rewrite length_app. simpl.
    split; [lia|]. rewrite lookup_app_r by lia.
    rewrite Nat.sub_diag. reflexivity.
Qed.

(** X9.  [search] never throws and makes exactly one request, to
    [base_url]/search, with the query, the JSON format, the language, the
    engines joined by commas and the number of results as parameters.
    When the endpoint answers with a status in 200..299 the value
    returned is the parsed body; on any other answer or failure it is a
    new object whose [results] field is the empty array.  The file system
    is not touched. *)
Theorem search_never_throws (query language : string) (w : World) :
  let answer :=
    net_json env (search_request_world self query w) (search_url self)
      (search_params self query language) in
  exists v w' new,
    search env self query language w = (Ok v, w')
    /\ trace w' = trace w ++ new
    /\ http_gets new = [search_url self]
    /\ files w' = files w
    /\ (forall st hs d,
          answer = NetResponse st hs d -> search_succeeds answer = true ->
          (v, heap w') = materialize d (heap w))
    /\ (search_succeeds answer = false ->
        exists l, v = JObj l /\ l = length (heap w') - 1
                  /\ heap w' !! l = Some {[ "results" := JArr [] ]}).
Proof. exact (search_spec query language w). Qed.

(** X10.  When the search endpoint does not answer with a status in
    200..299, [search_and_parse] returns the empty list, having made the
    search request and no other: no document is fetched. *)
Theorem search_and_parse_failed_search (query language : string) (w : World) :
  search_succeeds
    (net_json env (search_request_world self query (search_world query w))
       (search_url self) (search_params self query language)) = false ->
  exists w' new,
    search_and_parse env self query language w = (Ok [], w')
    /\ trace w' = trace w ++ new
    /\ http_gets new = [search_url self]
    /\ files w' = files w.
Proof.
  intros Hfail.
  destruct (search_spec query language (search_world query w))
    as (v & w1 & new1 & Hrun & Htr & Hget & Hfiles & _ & Hobj).
  destruct (Hobj Hfail) as (l & -> & _ & Hl).
  unfold search_and_parse, search_and_parse_with. run.
  fold (search_world query w). rewrite Hrun. simpl.
  unfold get_prop, fields_at. rewrite Hl. simpl.
  rewrite lookup_singleton_eq. simpl.
  unfold fetch_and_parse_results, fetch_and_parse_results_with. simpl. run.
  do 2 eexists. split; [reflexivity|]. cbn [trace files].
  rewrite Htr. unfold search_world. cbn [trace files] in *.
  rewrite <- !app_assoc.
  split; [reflexivity|]. split; [|exact Hfiles].
  simpl. rewrite http_gets_app, Hget. reflexivity.
Qed.

(** X11.  Every item of the list returned by [search_and_parse] carries a
    non-empty [parsed_content] string of at most [max_content_length]
    code units, as the items returned by [fetch_and_parse_results] do. *)
Theorem search_and_parse_contents_bounded
    (query language : string) (w : World) :
  exists outs w',
    search_and_parse env self query language w = (Ok outs, w')
    /\ Forall (fun out =>
                 exists c,
                   field_of (heap w') out "parsed_content" = Some (JStr c)
                   /\ 0 < String.length c
                   /\ (N.of_nat (String.length c)
                       <= max_content_length self)%N) outs.
Proof.
  destruct (search_spec query language (search_world query w))
    as (v & w1 & new1 & Hrun & _).
  unfold search_and_parse, search_and_parse_with. run.
  fold (search_world query w). rewrite Hrun. unfold get_prop.
  destruct v as [| |[|]|z|s|items|l]; simpl; rewrite ?orb_true_r; run;
    try (do 2 eexists; split; [reflexivity|constructor]).
  destruct (fields_at (heap w1) l !! "results")
    as [[| |[|]|z|s|items|l0]|];
    simpl; rewrite ?orb_true_r; run;
    try (do 2 eexists; split; [reflexivity|constructor]).
  destruct (fetch_and_parse_results_spec env self (JArr items) w1)
    as (r & w2 & new & Hfpr & _ & _ & Hall & _).
  rewrite Hfpr. destruct r as [outs|e]; run;
    [|do 2 eexists; split; [reflexivity|constructor]].
  destruct (Hall outs eq_refl) as (kept & _ & Henr).
  do 2 eexists. split; [reflexivity|]. cbn [heap].
  clear Hfpr Hall.
  induction Henr as [|item out kept outs He _ IH]; [constructor|].
  constructor; [|exact IH].
  apply enriched_fields in He as (fs & c & _ & Ho & Hpos & Hle).
  exists c. rewrite Ho, lookup_insert_eq. auto.
Qed.

(** X16.  When the search returns an object with a [results] array,
    [search_and_parse] returns what the processing of that array
    returns, and logs its completion; this holds whatever the two
    callees are. *)
Theorem search_and_parse_with_returns_processed_results
    (search_ : string -> string -> M value)
    (fetch_and_parse_results_ : value -> M (list value))
    (query language : string) (w w1 w2 : World)
    (v : value) (items outs : list value) :
  search_ query language (search_world query w) = (Ok v, w1) ->
  results_array (heap w1) v = Some items ->
  fetch_and_parse_results_ (JArr items) w1 = (Ok outs, w2) ->
  search_and_parse_with search_ fetch_and_parse_results_ query language w
  = (Ok outs, completed_world query w2).
Proof.
  intros Hsearch Hres Hfpr.
  unfold search_and_parse_with. run. fold (search_world query w).
  rewrite Hsearch. unfold results_array, field_of in Hres.
  destruct v as [| |b|z|s|its|l]; try discriminate Hres.
  simpl. unfold get_prop. run.
  destruct (fields_at (heap w1) l !! "results") as [[| |b|z|s|its|l0]|];
    try discriminate Hres.
  injection Hres as ->. simpl. run. rewrite Hfpr. run. reflexivity.
Qed.

(** X17.  Failures of the fetch and of the extraction do not stop the
    batch.  When no item refers to a missing object and no item has an
    object or an array for [url], [fetch_and_parse_results] returns a
    list, whatever the network, the parsers and pdf2txt.py do, and the
    requests it makes are those for the items with a valid URL, one
    each, in the order of the input. *)
Theorem fetch_and_parse_results_fetches_every_valid_url
    (items : list value) (w : World) :
  closed (heap w) items ->
  Forall (fun item => url_is_primitive (heap w) item = true) items ->
  exists outs w' new,
    fetch_and_parse_results env self (JArr items) w = (Ok outs, w')
    /\ trace w' = trace w ++ new
    /\ http_gets new = omap (valid_url_of env (heap w)) items.
Proof.
  intros Hclosed Hprim.
  destruct (fetch_and_parse_results_spec env self (JArr items) w)
    as (r & w' & new & Hrun & _ & Htr & _ & Hgets & Hok).
  destruct (Hok Hclosed Hprim) as (outs & ->).
  exists outs, w', new. split; [exact Hrun|]. split; [exact Htr|].
  apply Hgets; [exact Hclosed|]. exists outs. reflexivity.
Qed.

(** X18.  What the entry points catch.  [fetch_and_parse_results]
    returns the empty list at once, after one error log, when its
    argument is not an array.  [search_and_parse] returns a list
    whatever the two methods it calls do: the empty list when the search
    throws, when the search response is not an object with a [results]
    array, and when the processing of the results throws. *)
Theorem search_and_parse_never_throws :
  (forall results w,
      Array_isArray results = false ->
      fetch_and_parse_results env self results w
      = (Ok [],
         mkWorld (heap w) (files w)
           (trace w ++ [EvLog Error "SearXNGClient: Invalid results format received. Expected an array."])))
  /\ (forall search_ fetch_and_parse_results_ query language w,
        exists outs w',
          search_and_parse_with search_ fetch_and_parse_results_
            query language w = (Ok outs, w')
          /\ (forall e w1,
                search_ query language (search_world query w)
                = (Throw e, w1) ->
                outs = [])
          /\ (forall v w1,
                search_ query language (search_world query w) = (Ok v, w1) ->
                results_array (heap w1) v = None ->
                outs = [])
          /\ (forall v w1 items e w2,
                search_ query language (search_world query w) = (Ok v, w1) ->
                results_array (heap w1) v = Some items ->
                fetch_and_parse_results_ (JArr items) w1 = (Throw e, w2) ->
                outs = []))
  /\ (forall query language w,
        exists outs w',
          search_and_parse env self query language w = (Ok outs, w')).
Proof.
  split; [|split].
  - intros results w Harr.
    unfold fetch_and_parse_results, fetch_and_parse_results_with.
    destruct results; try discriminate; simpl; rewrite ?orb_true_r;
      reflexivity.
  - apply search_and_parse_with_spec.
  - intros query language w. unfold search_and_parse.
    destruct (search_and_parse_with_spec (search env self)
                (fetch_and_parse_results env self) query language w)
      as (outs & w' & Hrun & _).
    eauto.
Qed.

(** ** Laws of the loop, for arbitrary callees *)

Section LoopLaws.

Variable fetch_ : string -> M (option (AxiosResponse (list Byte.byte))).
Variable parse_ : AxiosResponse (list Byte.byte) -> string
                  -> M (option ParsedContent).

(** X12.  Processing a batch at once is processing it in two parts: the
    run on [l1 ++ l2] is the run on [l1] followed, when that one returns,
    by the run on [l2] in the world that [l1] left, and its output is
    the two outputs in that order; when the run on [l1] throws, so does
    the run on [l1 ++ l2], in the same world, and likewise for [l2].
    This holds whatever the fetch and the extraction do. *)
Theorem fetch_and_parse_results_with_app (l1 l2 : list value) (w : World) :
  fetch_and_parse_results_with env fetch_ parse_ (JArr (l1 ++ l2)) w
  = (o1 ← fetch_and_parse_results_with env fetch_ parse_ (JArr l1);
     o2 ← fetch_and_parse_results_with env fetch_ parse_ (JArr l2);
     mret (o1 ++ o2)) w.
Proof.
  unfold fetch_and_parse_results_with. simpl.
  rewrite for_of_with_app. unfold mbind, M_bind, mret, M_ret.
  destruct (for_of_with_appends env fetch_ parse_ l1 w) as (r1 & w1 & H1).
  rewrite (H1 []).
  destruct r1 as [o1|e]; simpl; [|reflexivity].
  destruct (for_of_with_appends env fetch_ parse_ l2 w1) as (r2 & w2 & H2).
  rewrite (H2 o1), (H2 []).
  destruct r2 as [o2|e]; reflexivity.
Qed.

(** X13.  When the first item of a batch is an object with a valid URL,
    its fetch returns a response and the extraction returns a non-empty
    content, the run is the run on the rest of the batch, started in the
    world in which a new object holds the fields of the item and that
    content under [parsed_content], with that object put in front of the
    output; when the run on the rest throws, so does the whole run. *)
Theorem fetch_and_parse_results_with_keeps_extracted_item
    (l : loc) (u : string) (response : AxiosResponse (list Byte.byte))
    (pc : ParsedContent) (rest : list value) (w w1 w2 : World) :
  let w3 :=
    mkWorld (heap w2 ++ [<["parsed_content" := JStr (content pc)]>
                           (fields_at (heap w2) l)])
      (files w2) (trace w2) in
  fields_at (heap w) l !! "url" = Some (JStr u) ->
  _is_valid_url env u = true ->
  fetch_ u w = (Ok (Some response), w1) ->
  parse_ response u w1 = (Ok (Some pc), w2) ->
  JsString.nonempty (content pc) = true ->
  fetch_and_parse_results_with env fetch_ parse_ (JArr (JObj l :: rest)) w
  = (outs ← fetch_and_parse_results_with env fetch_ parse_ (JArr rest);
     mret (JObj (length (heap w2)) :: outs)) w3.
Proof.
  intros w3 Hurl Hvalid Hfetch Hparse Hne.
  unfold fetch_and_parse_results_with. simpl.
  unfold mbind, M_bind, mret, M_ret.
  assert (Hbody : loop_body_with env fetch_ parse_ (JObj l) [] w
                  = (Ok [JObj (length (heap w2))], w3)).
  { unfold loop_body_with, get_prop. simpl. run. rewrite Hurl. simpl.
    rewrite Hvalid. simpl. run. rewrite Hfetch, Hparse, Hne. run.
    reflexivity. }
  rewrite Hbody.
  destruct (for_of_with_appends env fetch_ parse_ rest w3)
    as (r & w' & Hrest).
  rewrite (Hrest [JObj (length (heap w2))]), (Hrest []).
  destruct r as [outs|e]; reflexivity.
Qed.

(** X14.  An exception thrown by the fetch or by the extraction of an
    item is caught by the loop: the item gives no output, one error line
    carrying the URL and the message of the exception is logged, and the
    rest of the batch is processed. *)
Theorem fetch_and_parse_results_with_catches
    (l : loc) (u : string) (e : exn) (rest : list value) (w w1 : World) :
  let w2 :=
    mkWorld (heap w1) (files w1)
      (trace w1 ++ [EvLog Error ("Error processing result for URL " +:+ u
                                 +:+ ": " +:+ message_of e)]) in
  fields_at (heap w) l !! "url" = Some (JStr u) ->
  _is_valid_url env u = true ->
  (fetch_ u w = (Throw e, w1)
   \/ exists response w0,
        fetch_ u w = (Ok (Some response), w0)
        /\ parse_ response u w0 = (Throw e, w1)) ->
  fetch_and_parse_results_with env fetch_ parse_ (JArr (JObj l :: rest)) w
  = fetch_and_parse_results_with env fetch_ parse_ (JArr rest) w2.
Proof.
  intros w2 Hurl Hvalid Hthrow.
  unfold fetch_and_parse_results_with. simpl.
  unfold mbind, M_bind at 1.
  assert (Hbody : loop_body_with env fetch_ parse_ (JObj l) [] w
                  = (Ok [], w2)).
  { unfold loop_body_with, get_prop. simpl. run. rewrite Hurl. simpl.
    rewrite Hvalid. simpl. run.
    destruct Hthrow as [Hf|(response & w0 & Hf & Hp)].
    - rewrite Hf. reflexivity.
    - rewrite Hf, Hp. reflexivity. }
  rewrite Hbody. reflexivity.
Qed.

End LoopLaws.

End MoreProperties.

(** ** The further properties on the concrete web *)

Lemma parse_content_tier1_text_witness :
  exists w',
    _parse_content Scenario.env new_SearXNGClient Scenario2.hello_response
      "https://a.test" Scenario.world0
    = (Ok (Some (mkParsed "https://a.test" "Hello world")), w').
Proof.
  destruct (parse_content_tier1_text Scenario.env new_SearXNGClient
              Scenario2.hello_response "https://a.test" "Hello world"
              Scenario.world0 eq_refl eq_refl eq_refl eq_refl)
    as (w' & new & Hrun & _).
  exists w'. exact Hrun.
Defined.

Lemma parse_content_tier2_text_witness :
  exists w',
    _parse_content Scenario2.env_messy new_SearXNGClient
      Scenario2.messy_response "https://f.test" Scenario.world0
    = (Ok (Some (mkParsed "https://f.test" "Title some text")), w')
    /\ ws_normalized "Title some text" = true.
Proof.
  destruct (parse_content_tier2_text Scenario2.env_messy new_SearXNGClient
              Scenario2.messy_response "https://f.test" Scenario2.messy_body
              Scenario.world0 eq_refl eq_refl eq_refl eq_refl)
    as (w' & Hrun & Hnorm).
  exists w'. split; [exact Hrun|exact Hnorm].
Defined.

Lemma extract_text_from_pdf_success_witness :
  exists w',
    _extract_text_from_pdf Scenario.env new_SearXNGClient
      "https://b.test/doc.pdf" Scenario.pdf_bytes Scenario.world0
    = (Ok (Some "Document text"), w')
    /\ files w' = delete Scenario.temp_path (files Scenario.world0).
Proof.
  assert (Htime : (1200 <= pdfExtractionTimeout new_SearXNGClient * 1000)%N)
    by (simpl; lia).
  destruct (extract_text_from_pdf_success Scenario.env new_SearXNGClient
              "https://b.test/doc.pdf" Scenario.pdf_bytes Scenario.world0
              1200 "  Document text  " EmptyString
              eq_refl eq_refl Htime eq_refl)
    as (w' & Hrun & Hfiles & _).
  exists w'. split; [exact Hrun|exact Hfiles].
Defined.

Lemma extract_text_from_pdf_unlink_failure_witness :
  exists w',
    _extract_text_from_pdf Scenario2.env_unlink_fails new_SearXNGClient
      "https://b.test/doc.pdf" Scenario.pdf_bytes Scenario.world0
    = (Ok None, w')
    /\ files w' !! Scenario.temp_path = Some Scenario.pdf_bytes.
Proof.
  assert (Htime : (1200 <= pdfExtractionTimeout new_SearXNGClient * 1000)%N)
    by (simpl; lia).
  exact (extract_text_from_pdf_unlink_failure Scenario2.env_unlink_fails
           new_SearXNGClient "https://b.test/doc.pdf" Scenario.pdf_bytes
           Scenario.world0 1200 "  Document text  " EmptyString
           "EACCES: permission denied, unlink"
           eq_refl eq_refl Htime eq_refl).
Defined.

Lemma extract_text_from_pdf_text_only_on_success_witness :
  exists elapsed stdout stderr,
    exec_outcome Scenario.env
      (exec_world Scenario.env Scenario.pdf_bytes Scenario.world0)
      ("pdf2txt.py " +:+ JsString.dq +:+ Scenario.temp_path +:+ JsString.dq)
    = ExecExit elapsed 0 stdout stderr
    /\ (elapsed <= pdfExtractionTimeout new_SearXNGClient * 1000)%N
    /\ "Document text" = JsString.trim stdout.
Proof.
  assert (Hrun : _extract_text_from_pdf Scenario.env new_SearXNGClient
                   "https://b.test/doc.pdf" Scenario.pdf_bytes Scenario.world0
                 = (Ok (Some "Document text"),
                    snd (_extract_text_from_pdf Scenario.env new_SearXNGClient
                           "https://b.test/doc.pdf" Scenario.pdf_bytes
                           Scenario.world0)))
    by reflexivity.
  destruct (extract_text_from_pdf_text_only_on_success Scenario.env
              new_SearXNGClient "https://b.test/doc.pdf" Scenario.pdf_bytes
              Scenario.world0 _ "Document text" Hrun)
    as (elapsed & stdout & stderr & _ & Hexec & Htime & _ & Htext & _).
  exists elapsed, stdout, stderr. repeat split; assumption.
Defined.

Lemma parse_content_pdf_text_witness :
  exists w',
    _parse_content Scenario.env new_SearXNGClient Scenario2.pdf_response
      "https://b.test/doc.pdf" Scenario.world0
    = (Ok (Some (mkParsed "https://b.test/doc.pdf" "Document text")), w')
    /\ files w' = delete Scenario.temp_path (files Scenario.world0).
Proof.
  assert (Htime : (1200 <= pdfExtractionTimeout new_SearXNGClient * 1000)%N)
    by (simpl; lia).
  exact (parse_content_pdf_text Scenario.env new_SearXNGClient
           Scenario2.pdf_response "https://b.test/doc.pdf" Scenario.world0
           1200 "  Document text  " EmptyString
           eq_refl eq_refl eq_refl Htime eq_refl).
Defined.

Lemma search_and_parse_failed_search_witness :
  exists w' new,
    search_and_parse Scenario.env new_SearXNGClient "rocq" "en"
      Scenario.world0 = (Ok [], w')
    /\ trace w' = trace Scenario.world0 ++ new
    /\ http_gets new = ["http://localhost:8888//search"].
Proof.
  destruct (search_and_parse_failed_search Scenario.env new_SearXNGClient
              "rocq" "en" Scenario.world0 eq_refl)
    as (w' & new & Hrun & Htr & Hget & _).
  exists w', new. repeat split; assumption.
Defined.

Lemma fetch_and_parse_results_with_keeps_extracted_item_witness :
  exists outs w',
    fetch_and_parse_results Scenario.env new_SearXNGClient
      (JArr [JObj 0; JObj 4; JObj 1]) Scenario.world0
    = (Ok (JObj 6 :: outs), w').
Proof.
  set (w1 := snd (_fetch_url_content Scenario.env "https://a.test"
                    Scenario.world0)).
  set (w2 := snd (_parse_content Scenario.env new_SearXNGClient
                    Scenario2.hello_response "https://a.test" w1)).
  pose proof (fetch_and_parse_results_with_keeps_extracted_item
                Scenario.env
                (_fetch_url_content Scenario.env)
                (_parse_content Scenario.env new_SearXNGClient)
                0 "https://a.test" Scenario2.hello_response
                (mkParsed "https://a.test" "Hello world")
                [JObj 4; JObj 1] Scenario.world0 w1 w2
                eq_refl eq_refl eq_refl eq_refl eq_refl)
    as Hrun.
  cbv zeta in Hrun. unfold fetch_and_parse_results. rewrite Hrun.
  unfold mbind, M_bind, mret, M_ret.
  match goal with
  | |- context [fetch_and_parse_results_with ?e ?f ?p ?a ?w] =>
      set (after := fetch_and_parse_results_with e f p a w)
  end.
  set (outs := match fst after with Ok o => o | Throw _ => [] end).
  assert (Hafter : after = (Ok outs, snd after)) by (vm_compute; reflexivity).
  rewrite Hafter. exists outs, (snd after). reflexivity.
Defined.

Lemma fetch_and_parse_results_with_catches_witness :
  exists w',
    fetch_and_parse_results_with Scenario.env Scenario2.fetch_throws
      Scenario2.parse_unused (JArr [JObj 0; JObj 1]) Scenario.world0
    = (Ok [], w')
    /\ trace w' =
       [EvLog Error "Error processing result for URL https://a.test: socket hang up";
        EvLog Error "Error processing result for URL https://b.test/doc.pdf: socket hang up"].
Proof.
  eexists.
  rewrite (fetch_and_parse_results_with_catches Scenario.env
             Scenario2.fetch_throws Scenario2.parse_unused
             0 "https://a.test" (JsError "socket hang up") [JObj 1]
             Scenario.world0 Scenario.world0
             eq_refl eq_refl (or_introl eq_refl)).
  split; reflexivity.
Defined.

Lemma fetch_and_parse_results_markup_only_witness :
  never_pdf Scenario2.env_html_only
  /\ exists r w' new,
       fetch_and_parse_results Scenario2.env_html_only new_SearXNGClient
         (JArr [JObj 0; JObj 1; JObj 5]) Scenario.world0 = (r, w')
       /\ trace w' = trace Scenario.world0 ++ new
       /\ files w' = files Scenario.world0
       /\ execs new = [] /\ writes new = [].
Proof.
  assert (Hnever : never_pdf Scenario2.env_html_only).
  { intros w u st hs d Hnet. simpl in Hnet. unfold Scenario.page in Hnet.
    injection Hnet as <- <- <-. reflexivity. }
  split; [exact Hnever|].
  exact (fetch_and_parse_results_markup_only Scenario2.env_html_only
           new_SearXNGClient (JArr [JObj 0; JObj 1; JObj 5]) Scenario.world0
           Hnever).
Defined.

Lemma search_and_parse_with_returns_processed_results_witness :
  exists outs w',
    search_and_parse
      (Scenario.env_of Scenario.search_response Scenario.pdf_ok)
      new_SearXNGClient "rocq" "en" Scenario.world0 = (Ok outs, w')
    /\ length outs = 2.
Proof.
  set (env := Scenario.env_of Scenario.search_response Scenario.pdf_ok).
  set (found := search env new_SearXNGClient "rocq" "en"
                  (search_world "rocq" Scenario.world0)).
  set (v := match fst found with Ok v => v | Throw _ => JNull end).
  set (items := default [] (results_array (heap (snd found)) v)).
  set (processed := fetch_and_parse_results env new_SearXNGClient
                      (JArr items) (snd found)).
  set (outs := match fst processed with Ok o => o | Throw _ => [] end).
  assert (Hsearch : found = (Ok v, snd found)) by (vm_compute; reflexivity).
  assert (Hres : results_array (heap (snd found)) v = Some items)
    by (vm_compute; reflexivity).
  assert (Hfpr : processed = (Ok outs, snd processed))
    by (vm_compute; reflexivity).
  exists outs, (completed_world "rocq" (snd processed)). split.
  - exact (search_and_parse_with_returns_processed_results
             (search env new_SearXNGClient)
             (fetch_and_parse_results env new_SearXNGClient)
             "rocq" "en" Scenario.world0 (snd found) (snd processed)
             v items outs Hsearch Hres Hfpr).
  - vm_compute. reflexivity.
Defined.

Lemma fetch_and_parse_results_fetches_every_valid_url_witness :
  let items := [JObj 4; JObj 1; JObj 2; JNull; JObj 0] in
  closed (heap Scenario.world0) items
  /\ Forall (fun item => url_is_primitive (heap Scenario.world0) item = true)
       items
  /\ exists outs w' new,
       fetch_and_parse_results (Scenario.env_with Scenario.pdf_fails)
         new_SearXNGClient (JArr items) Scenario.world0 = (Ok outs, w')
       /\ trace w' = trace Scenario.world0 ++ new
       /\ http_gets new =
          ["https://unreachable.test"; "https://b.test/doc.pdf";
           "https://a.test"].
Proof.
  intros items.
  assert (Hc : closed (heap Scenario.world0) items)
    by (repeat constructor; simpl; lia).
  assert (Hp : Forall (fun item =>
                         url_is_primitive (heap Scenario.world0) item = true)
                 items)
    by (repeat constructor).
  split; [exact Hc|]. split; [exact Hp|].
  destruct (fetch_and_parse_results_fetches_every_valid_url
              (Scenario.env_with Scenario.pdf_fails) new_SearXNGClient
              items Scenario.world0 Hc Hp)
    as (outs & w' & new & Hrun & Htr & Hget).
  exists outs, w', new. repeat split; assumption.
Defined.

Lemma parse_content_leaves_timeout_warning_witness :
  exists r w' new,
    _parse_content Scenario.env new_SearXNGClient Scenario2.hello_response
      "https://a.test" Scenario.world0 = (Ok r, w')
    /\ trace w' = trace Scenario.world0 ++ new
    /\ EvLateLog 15000 Warn
         "SearXNGClient: Parsing timed out for URL: https://a.test" ∈ new.
Proof.
  exact (parse_content_leaves_timeout_warning Scenario.env new_SearXNGClient
           Scenario2.hello_response "https://a.test" Scenario.world0
           eq_refl eq_refl).
Defined.
